(** * Spektacular: the agent runner abstraction

    A shallow embedding of the Go packages [internal/runner] and
    [internal/runner/claude] of jumppad-labs/spektacular, together with
    the properties their specification states about them.

    Definitions come first:
    - [GoRt]    the fragment of the Go runtime and standard library the
                code relies on: dynamic values ([any]), comma-ok type
                assertions, nil-tolerant map reads, [strings.Join],
                [strings.Cut], [strconv.Quote], [sort.Strings], channel
                operations, and a small monad that makes run-time
                panics explicit;
    - [Json]    [encoding/json] decoding into [map[string]any];
    - [Config]  the configuration fields the runner reads;
    - [Os]      errors, child processes and the working directory;
    - [Runner]  [runner.go] and [registry.go]: events and their
                accessors, questions and their detection, run options,
                the runner interface and the registry;
    - [Claude]  [claude/claude.go]: command assembly, the line scanner,
                the read loop and the goroutine that feeds the channels;
    - [Fixtures] the data of the tests and of the scenarios.

    The theorems follow, one module per component. *)

From Stdlib Require Import String Ascii ZArith NArith Lia List.
From stdpp Require Import gmap strings list sorting.

Set Warnings "-register-all".

(* ===================================================================== *)
(** ** The Go runtime fragment                                            *)
(* ===================================================================== *)

Module GoRt.

(** A computation of the Go program either returns or panics. *)
Inductive go (A : Type) : Type :=
  | Ok (a : A)
  | Panic (msg : string).
Arguments Ok {A} a.
Arguments Panic {A} msg.

Definition go_bind {A B} (m : go A) (k : A -> go B) : go B :=
  match m with
  | Ok a => k a
  | Panic msg => Panic msg
  end.

Declare Scope go_scope.
Delimit Scope go_scope with go.
Notation "'do' x <~ m ;; k" := (go_bind m (fun x => k))
  (at level 10, x name, m at level 99, k at level 200) : go_scope.
Local Open Scope go_scope.

(** [returns m]: the computation does not panic. *)
Definition returns {A} (m : go A) : Prop := exists a, m = Ok a.

(** A value held in an [any] (the empty interface).  [encoding/json]
    produces nil, bool, float64, string, [[]any] and [map[string]any];
    [VOther] stands for a value of any other dynamic type (an int, a
    struct, ...), which hand-built payloads may hold.  A float64 is
    kept as the literal it was decoded from: no code in the runner
    packages inspects a number. *)
Inductive any : Type :=
  | VNil
  | VBool (b : bool)
  | VNum (lit : string)
  | VStr (s : string)
  | VSlice (l : list any)
  | VMap (m : gmap string any)
  | VOther (tag : nat).

(** [m[k]] on a [map[string]any]: the zero value (a nil interface) when
    the key is absent; reading a nil map is allowed and behaves like
    reading an empty one. *)
Definition index (m : gmap string any) (k : string) : any :=
  match m !! k with
  | Some v => v
  | None => VNil
  end.

(** Comma-ok type assertions [v, ok := x.(T)]: the zero value of [T]
    and [false] when the dynamic type differs; this form never panics. *)
Definition assert_string (x : any) : string * bool :=
  match x with
  | VStr s => (s, true)
  | _ => ("", false)
  end.

Definition assert_bool (x : any) : bool * bool :=
  match x with
  | VBool b => (b, true)
  | _ => (false, false)
  end.

(** The zero value of a map type is the nil map, which reads as empty. *)
Definition assert_map (x : any) : gmap string any * bool :=
  match x with
  | VMap m => (m, true)
  | _ => (∅, false)
  end.

Definition assert_slice (x : any) : list any * bool :=
  match x with
  | VSlice l => (l, true)
  | _ => ([], false)
  end.

(** [x == "lit"] with [x] an interface value: true exactly when the
    dynamic type of [x] is string and the strings are equal.  The run
    time panics on [==] only when both operands hold the same
    uncomparable dynamic type, which a string operand excludes. *)
Definition iface_eq_string (x : any) (lit : string) : go bool :=
  match x with
  | VStr s => Ok (String.eqb s lit)
  | _ => Ok false
  end.

(** [for _, x := range xs { s = body(s, x) }] *)
Fixpoint for_range {A S : Type} (xs : list A) (body : S -> A -> go S) (s : S)
  : go S :=
  match xs with
  | [] => Ok s
  | x :: rest => do s' <~ body s x ;; for_range rest body s'
  end.

(** *** Strings *)

(** The double quote and the line feed. *)
Definition dquote : ascii := "034"%char.
Definition newline : ascii := "010"%char.

(** Test data is written with single quotes where the Go sources have
    double quotes; [dq] puts the double quotes back. *)
Fixpoint dq (s : string) : string :=
  match s with
  | "" => ""
  | String c r => String (if Ascii.eqb c "'"%char then dquote else c) (dq r)
  end.

(** [strings.Join(elems, sep)] *)
Fixpoint strings_Join (elems : list string) (sep : string) : string :=
  match elems with
  | [] => ""
  | [x] => x
  | x :: rest => x +:+ sep +:+ strings_Join rest sep
  end.

(** [strings.CutPrefix(s, prefix)]: what follows [prefix] in [s]. *)
Fixpoint trim_prefix (prefix s : string) : option string :=
  match prefix with
  | "" => Some s
  | String a prefix' =>
      match s with
      | "" => None
      | String b s' => if Ascii.eqb a b then trim_prefix prefix' s' else None
      end
  end.

(** [strings.Cut(s, sep)]: the text before and after the first
    occurrence of [sep] in [s]. *)
Fixpoint cut (sep s : string) : option (string * string) :=
  match trim_prefix sep s with
  | Some after => Some ("", after)
  | None =>
      match s with
      | "" => None
      | String c s' =>
          match cut sep s' with
          | Some (before, after) => Some (String c before, after)
          | None => None
          end
      end
  end.

(** [sub] occurs in [s]. *)
Definition occurs (sub s : string) : Prop :=
  exists before after, s = before +:+ sub +:+ after.


(** [strings.Contains(s, sub)] *)
Definition strings_Contains (s sub : string) : bool :=
  match cut sub s with
  | Some _ => true
  | None => false
  end.

(** *** Formatting *)

Definition hex_digit (n : N) : ascii :=
  match String.get (N.to_nat n) "0123456789abcdef" with
  | Some c => c
  | None => "0"%char
  end.

(** How [strconv.Quote] renders one byte of its argument.  Bytes below
    0x80 are rendered as the library does.  For a byte from 0x80 on the
    library decodes a UTF-8 sequence and consults the Unicode tables;
    here it is copied, which is what the library does for the
    well-formed encoding of a printable character. *)
Definition quote_byte (c : ascii) : string :=
  let n := N_of_ascii c in
  if (n =? 34)%N || (n =? 92)%N then String "092" (String c "")
  else if (32 <=? n)%N && (n <? 127)%N then String c ""
  else if (n =? 7)%N then "\a"
  else if (n =? 8)%N then "\b"
  else if (n =? 12)%N then "\f"
  else if (n =? 10)%N then "\n"
  else if (n =? 13)%N then "\r"
  else if (n =? 9)%N then "\t"
  else if (n =? 11)%N then "\v"
  else if (n <? 128)%N then
    String "092" (String "x" (String (hex_digit (n / 16)) (String (hex_digit (n mod 16)) "")))
  else String c "".

Fixpoint quote_bytes (s : string) : string :=
  match s with
  | "" => ""
  | String c r => quote_byte c +:+ quote_bytes r
  end.

(** [strconv.Quote(s)], the rendering of the verb [%q]. *)
Definition strconv_Quote (s : string) : string :=
  String dquote (quote_bytes s +:+ String dquote "").

(** The rendering of a [[]string] by the verb [%v]. *)
Definition fmt_v_strings (l : list string) : string :=
  "[" +:+ strings_Join l " " +:+ "]".

(** [sort.Strings]: ascending in the byte-wise order of [<] on strings. *)
Definition sort_Strings (l : list string) : list string :=
  merge_sort String.le l.

(** *** Channels *)

(** What a goroutine does to a channel it owns. *)
Inductive chan_op (A : Type) : Type :=
  | Send (a : A)
  | Close.
Arguments Send {A} a.
Arguments Close {A}.



End GoRt.

Import GoRt.
Local Open Scope go_scope.

(* ===================================================================== *)
(** ** encoding/json: decoding a text into [map[string]any]               *)
(* ===================================================================== *)

Module Json.

Definition is_ws (c : ascii) : bool :=
  match c with
  | " " | "009" | "010" | "013" => true
  | _ => false
  end%char.

Fixpoint skip_ws (s : string) : string :=
  match s with
  | String c r => if is_ws c then skip_ws r else s
  | "" => ""
  end.

Definition digit_val (c : ascii) : option Z :=
  let n := Z.of_N (N_of_ascii c) in
  if (48 <=? n)%Z && (n <=? 57)%Z then Some (n - 48)%Z else None.

Definition hex_val (c : ascii) : option N :=
  let n := N_of_ascii c in
  if (48 <=? n)%N && (n <=? 57)%N then Some (n - 48)%N
  else if (97 <=? n)%N && (n <=? 102)%N then Some (n - 87)%N
  else if (65 <=? n)%N && (n <=? 70)%N then Some (n - 55)%N
  else None.

(** *** Numbers *)

(** The longest run of decimal digits at the head of [s]. *)
Fixpoint take_digits (s : string) : string * string :=
  match s with
  | String c r =>
      match digit_val c with
      | Some _ => let '(ds, rest) := take_digits r in (String c ds, rest)
      | None => ("", s)
      end
  | "" => ("", "")
  end.

Fixpoint digits_value (acc : Z) (ds : string) : Z :=
  match ds with
  | String c r =>
      match digit_val c with
      | Some d => digits_value (10 * acc + d) r
      | None => acc
      end
  | "" => acc
  end.

(** [mant * 10^exp10] is too large for a float64: it is at least
    [2^1024 - 2^970], half a unit in the last place above the largest
    finite value, where [strconv.ParseFloat] reports a range error.
    [ndigits] bounds the number of decimal digits of [mant]. *)
Definition float64_overflows (mant exp10 ndigits : Z) : bool :=
  let limit := (2 ^ 1024 - 2 ^ 970)%Z in
  if (mant =? 0)%Z then false
  else if (0 <=? exp10)%Z then
    if (310 <? exp10)%Z then true else (limit <=? mant * 10 ^ exp10)%Z
  else if (ndigits + exp10 <=? 308)%Z then false
  else (limit * 10 ^ (- exp10) <=? mant)%Z.

(** A number literal at the head of [s]: its text and what follows.
    [None] when the text is not a number or does not fit a float64. *)
Definition number (s : string) : option (string * string) :=
  let '(sign, s1) :=
    match s with
    | String "-" r => ("-", r)
    | _ => ("", s)
    end in
  let int_part :=
    match s1 with
    | String "0" r => Some ("0", r)
    | _ => match take_digits s1 with
           | ("", _) => None
           | (ds, r) => Some (ds, r)
           end
    end in
  match int_part with
  | None => None
  | Some (ints, s2) =>
      let frac_part :=
        match s2 with
        | String "." r =>
            match take_digits r with
            | ("", _) => None
            | (ds, r') => Some (ds, r')
            end
        | _ => Some ("", s2)
        end in
      match frac_part with
      | None => None
      | Some (fracs, s3) =>
          let exp_part :=
            match s3 with
            | String c r =>
                if Ascii.eqb c "e" || Ascii.eqb c "E" then
                  let '(esign, r1) :=
                    match r with
                    | String "+" r' => ("+", r')
                    | String "-" r' => ("-", r')
                    | _ => ("", r)
                    end in
                  match take_digits r1 with
                  | ("", _) => None
                  | (ds, r') => Some (String c (esign +:+ ds),
                                      (if String.eqb esign "-" then -1 else 1)
                                      * digits_value 0 ds, r')%Z
                  end
                else Some ("", 0%Z, s3)
            | "" => Some ("", 0%Z, s3)
            end in
          match exp_part with
          | None => None
          | Some (etext, e, rest) =>
              let mant := digits_value 0 (ints +:+ fracs) in
              let nfrac := Z.of_nat (String.length fracs) in
              let ndig := Z.of_nat (String.length (ints +:+ fracs)) in
              if float64_overflows mant (e - nfrac) ndig then None
              else
                Some (sign +:+ ints
                        +:+ (if String.eqb fracs "" then "" else "." +:+ fracs)
                        +:+ etext, rest)
          end
      end
  end.

(** *** Strings *)

Definition ascii_of_N' (n : N) : ascii := ascii_of_N n.

(** The UTF-8 encoding of a code point. *)
Definition utf8_encode (cp : N) : string :=
  (if cp <? 128 then String (ascii_of_N' cp) ""
   else if cp <? 2048 then
     String (ascii_of_N' (192 + cp / 64))
       (String (ascii_of_N' (128 + cp mod 64)) "")
   else if cp <? 65536 then
     String (ascii_of_N' (224 + cp / 4096))
       (String (ascii_of_N' (128 + (cp / 64) mod 64))
          (String (ascii_of_N' (128 + cp mod 64)) ""))
   else
     String (ascii_of_N' (240 + cp / 262144))
       (String (ascii_of_N' (128 + (cp / 4096) mod 64))
          (String (ascii_of_N' (128 + (cp / 64) mod 64))
             (String (ascii_of_N' (128 + cp mod 64)) ""))))%N.

(** Four hexadecimal digits. *)
Definition hex4 (a b c d : ascii) : option N :=
  match hex_val a, hex_val b, hex_val c, hex_val d with
  | Some x, Some y, Some z, Some w => Some (((x * 16 + y) * 16 + z) * 16 + w)%N
  | _, _, _, _ => None
  end.

Definition replacement_char : N := 65533%N.

(** The low half of a surrogate pair written as an escape at the head
    of [s], when the escape that precedes it was the high half [hi]. *)
Definition low_surrogate (hi : N) (s : string) : option (N * string) :=
  match s with
  | String "\" (String "u" (String a (String b (String c (String d r))))) =>
      match hex4 a b c d with
      | Some lo =>
          if ((55296 <=? hi) && (hi <? 56320) && (56320 <=? lo) && (lo <? 57344))%N
          then Some ((hi - 55296) * 1024 + (lo - 56320) + 65536, r)%N
          else None
      | None => None
      end
  | _ => None
  end.

(** The contents of a string literal, [s] starting after the opening
    quote: the decoded text and what follows the closing quote.  A
    byte from 0x80 on is copied; where the bytes are not well-formed
    UTF-8 the library stores U+FFFD in their place. *)
Fixpoint string_body (s : string) : option (string * string) :=
  match s with
  | "" => None
  | String c r =>
      if Ascii.eqb c dquote then Some ("", r)
      else if (N_of_ascii c <? 32)%N then None
      else if Ascii.eqb c "\" then
        match r with
        | String e r1 =>
            let simple (out : ascii) :=
              match string_body r1 with
              | Some (text, rest) => Some (String out text, rest)
              | None => None
              end in
            if Ascii.eqb e dquote then simple dquote
            else if Ascii.eqb e "\" then simple "\"%char
            else if Ascii.eqb e "/" then simple "/"%char
            else if Ascii.eqb e "b" then simple "008"%char
            else if Ascii.eqb e "f" then simple "012"%char
            else if Ascii.eqb e "n" then simple "010"%char
            else if Ascii.eqb e "r" then simple "013"%char
            else if Ascii.eqb e "t" then simple "009"%char
            else if Ascii.eqb e "u" then
              match r1 with
              | String h1 (String h2 (String h3 (String h4 r2))) =>
                  match hex4 h1 h2 h3 h4 with
                  | Some cp =>
                      if ((55296 <=? cp) && (cp <? 57344))%N then
                        match low_surrogate cp r2 with
                        | Some (full, _) =>
                            match r2 with
                            | String _ (String _ (String _ (String _ (String _ (String _ r3))))) =>
                                match string_body r3 with
                                | Some (text, rest) => Some (utf8_encode full +:+ text, rest)
                                | None => None
                                end
                            | _ => None
                            end
                        | None =>
                            match string_body r2 with
                            | Some (text, rest) =>
                                Some (utf8_encode replacement_char +:+ text, rest)
                            | None => None
                            end
                        end
                      else
                        match string_body r2 with
                        | Some (text, rest) => Some (utf8_encode cp +:+ text, rest)
                        | None => None
                        end
                  | None => None
                  end
              | _ => None
              end
            else None
        | "" => None
        end
      else
        match string_body r with
        | Some (text, rest) => Some (String c text, rest)
        | None => None
        end
  end.

(** *** Values *)

(** The deepest nesting of arrays and objects the library accepts. *)
Definition maxNestingDepth : N := 10000.

(** A value at the head of [s], below [depth] enclosing arrays and
    objects; [elements] and [members] read what follows the opening
    bracket of an array and of an object.  Of two members with the
    same key the later one is kept.  Of two successive calls one
    consumes input, so twice the length of the text is fuel enough. *)
Fixpoint value (fuel : nat) (depth : N) (s : string) : option (any * string) :=
  match fuel with
  | O => None
  | S fuel' =>
      match skip_ws s with
      | String "{" r =>
          if (maxNestingDepth <? depth + 1)%N then None
          else
            match skip_ws r with
            | String "}" r' => Some (VMap ∅, r')
            | r1 => members fuel' (depth + 1)%N r1 ∅
            end
      | String "[" r =>
          if (maxNestingDepth <? depth + 1)%N then None
          else
            match skip_ws r with
            | String "]" r' => Some (VSlice [], r')
            | r1 => elements fuel' (depth + 1)%N r1 []
            end
      | String "t" (String "r" (String "u" (String "e" r))) => Some (VBool true, r)
      | String "f" (String "a" (String "l" (String "s" (String "e" r)))) =>
          Some (VBool false, r)
      | String "n" (String "u" (String "l" (String "l" r))) => Some (VNil, r)
      | String c r =>
          if Ascii.eqb c dquote then
            match string_body r with
            | Some (text, rest) => Some (VStr text, rest)
            | None => None
            end
          else
            match number (String c r) with
            | Some (lit, rest) => Some (VNum lit, rest)
            | None => None
            end
      | "" => None
      end
  end
with elements (fuel : nat) (depth : N) (s : string) (acc : list any)
  : option (any * string) :=
  match fuel with
  | O => None
  | S fuel' =>
      match value fuel' depth s with
      | Some (v, r) =>
          match skip_ws r with
          | String "," r' => elements fuel' depth r' (acc ++ [v])
          | String "]" r' => Some (VSlice (acc ++ [v]), r')
          | _ => None
          end
      | None => None
      end
  end
with members (fuel : nat) (depth : N) (s : string) (acc : gmap string any)
  : option (any * string) :=
  match fuel with
  | O => None
  | S fuel' =>
      match skip_ws s with
      | String c r =>
          if Ascii.eqb c dquote then
            match string_body r with
            | Some (key, r1) =>
                match skip_ws r1 with
                | String ":" r2 =>
                    match value fuel' depth r2 with
                    | Some (v, r3) =>
                        match skip_ws r3 with
                        | String "," r4 => members fuel' depth r4 (<[key := v]> acc)
                        | String "}" r4 => Some (VMap (<[key := v]> acc), r4)
                        | _ => None
                        end
                    | None => None
                    end
                | _ => None
                end
            | None => None
            end
          else None
      | "" => None
      end
  end.

(** The whole of [text] is one JSON value, surrounded by white space
    at most. *)
Definition decode (text : string) : option any :=
  match value (S (2 * String.length text)) 0 text with
  | Some (v, rest) =>
      match skip_ws rest with
      | "" => Some v
      | _ => None
      end
  | None => None
  end.

(** [var data map[string]any; err := json.Unmarshal([]byte(text), &data)]:
    [Some data] when [err] is nil.  An object fills the map.  The
    literal [null] is accepted too: by the documentation of the
    package, "the JSON null value unmarshals into an interface, map,
    pointer, or slice by setting that Go value to nil"; the nil map
    reads as the empty map.  Any other value is a type error. *)
Definition Unmarshal (text : string) : option (gmap string any) :=
  match decode text with
  | Some (VMap m) => Some m
  | Some VNil => Some ∅
  | _ => None
  end.

End Json.

(* ===================================================================== *)
(** ** internal/config and the operating system                           *)
(* ===================================================================== *)

Module Config.

(** Modelled from the spec: [internal/config/config.go] is not among
    the sources.  The records hold the fields the runner code reads:
    the agent's command name, argument list, tool allow-list and
    skip-permissions flag, and the debug log settings. *)
Record AgentConfig : Type := mkAgentConfig {
  Command : string;
  Args : list string;
  AllowedTools : list string;
  DangerouslySkipPermissions : bool
}.

(** Modelled from the spec: the debug log settings of the missing
    [internal/config], read by [run] through [cfg.Debug]. *)
Record DebugConfig : Type := mkDebugConfig {
  Enabled : bool;
  LogDir : string
}.

(** Modelled from the spec: [config.Config] of the missing
    [internal/config], by the two parts the runner code reads. *)
Record Config : Type := mkConfig {
  Agent : AgentConfig;
  Debug : DebugConfig
}.

End Config.

Module Os.

(** A Go [error], by its message. *)
Definition error : Type := string.

(** [fmt.Errorf("<context>: %w", err)] *)
Definition wrap (context : string) (err : error) : error :=
  context +:+ ": " +:+ err.

(** What a child process does once [exec.Command(name, args...)] has
    described it: whether [StdoutPipe] and [Start] succeed, the bytes
    it writes to its standard output, and what [Wait] reports (an
    error for a nonzero exit status among others). *)
Record Proc : Type := mkProc {
  StdoutPipe_err : option error;
  Start_err : option error;
  stdout : string;
  Wait_err : option error
}.

(** The part of the machine an invocation touches: [os.Getwd] and the
    process a command line starts in a directory. *)
Record World : Type := mkWorld {
  Getwd : string * option error;
  Command : list string -> string -> Proc
}.

End Os.

(* ===================================================================== *)
(** ** internal/runner: runner.go and registry.go                         *)
(* ===================================================================== *)

Module Runner.

(** *** Events *)

(** [type Event struct { Type string; Data map[string]any }] *)
Record Event : Type := mkEvent {
  Type_ : string;
  Data : gmap string any
}.

(** [func (e Event) SessionID() string] *)
Definition SessionID (e : Event) : go string :=
  let '(v, _) := assert_string (index (Data e) "session_id") in
  Ok v.

(** [func (e Event) IsResult() bool] *)
Definition IsResult (e : Event) : bool := String.eqb (Type_ e) "result".

(** [func (e Event) IsError() bool] *)
Definition IsError (e : Event) : go bool :=
  if negb (IsResult e) then Ok false
  else
    let '(v, _) := assert_bool (index (Data e) "is_error") in
    Ok v.

(** [func (e Event) ResultText() string] *)
Definition ResultText (e : Event) : go string :=
  if negb (IsResult e) then Ok ""
  else
    let '(v, _) := assert_string (index (Data e) "result") in
    Ok v.

(** The body of the loop in [TextContent]. *)
Definition TextContent_body (texts : list string) (item : any) : go (list string) :=
  let '(block, _) := assert_map item in
  do is_text <~ iface_eq_string (index block "type") "text" ;;
  if is_text then
    match assert_string (index block "text") with
    | (t, true) => Ok (texts ++ [t])
    | (_, false) => Ok texts
    end
  else Ok texts.

(** [func (e Event) TextContent() string] *)
Definition TextContent (e : Event) : go string :=
  if negb (String.eqb (Type_ e) "assistant") then Ok ""
  else
    let '(msg, _) := assert_map (index (Data e) "message") in
    let '(content, _) := assert_slice (index msg "content") in
    do texts <~ for_range content TextContent_body [] ;;
    Ok (strings_Join texts (String newline "")).

(** The body of the loop in [ToolUses]. *)
Definition ToolUses_body (tools : list (gmap string any)) (item : any)
  : go (list (gmap string any)) :=
  let '(block, _) := assert_map item in
  do is_tool <~ iface_eq_string (index block "type") "tool_use" ;;
  if is_tool then Ok (tools ++ [block]) else Ok tools.

(** [func (e Event) ToolUses() []map[string]any]; a nil slice is the
    empty list. *)
Definition ToolUses (e : Event) : go (list (gmap string any)) :=
  if negb (String.eqb (Type_ e) "assistant") then Ok []
  else
    let '(msg, _) := assert_map (index (Data e) "message") in
    let '(content, _) := assert_slice (index msg "content") in
    for_range content ToolUses_body [].

(** *** The payload as the specification describes it *)

(** [payload.message.content], when the payload has that shape. *)
Definition message_content (e : Event) : list any :=
  match Data e !! "message" with
  | Some (VMap msg) =>
      match msg !! "content" with
      | Some (VSlice content) => content
      | _ => []
      end
  | _ => []
  end.

(** The text field of a content block of type "text". *)
Definition text_block (item : any) : option string :=
  match item with
  | VMap block =>
      match block !! "type", block !! "text" with
      | Some (VStr ty), Some (VStr t) =>
          if String.eqb ty "text" then Some t else None
      | _, _ => None
      end
  | _ => None
  end.

(** A content block of type "tool_use". *)
Definition tool_use_block (item : any) : option (gmap string any) :=
  match item with
  | VMap block =>
      match block !! "type" with
      | Some (VStr ty) => if String.eqb ty "tool_use" then Some block else None
      | _ => None
      end
  | _ => None
  end.

(** The payload's "result" string and "is_error" boolean. *)
Definition payload_result (e : Event) : string :=
  match Data e !! "result" with
  | Some (VStr s) => s
  | _ => ""
  end.

Definition payload_is_error (e : Event) : bool :=
  match Data e !! "is_error" with
  | Some (VBool b) => b
  | _ => false
  end.

(** *** Questions *)

(** [type Question struct { Question string; Header string;
    Options []map[string]any }] *)
Record Question : Type := mkQuestion {
  Question_ : string;
  Header : string;
  Options : list (gmap string any)
}.

(** The two tokens of
    [questionPattern = regexp.MustCompile(`<!--QUESTION:([\s\S]*?)-->`)]. *)
Definition marker_open : string := "<!--QUESTION:".
Definition marker_close : string := "-->".

(** The first capture group of the successive matches of
    [questionPattern] in [text].  A match starts at the leftmost
    opening token that a closing token follows; the group [[\s\S]*?]
    takes any characters, line breaks included, and as few as
    possible, so it ends at the first closing token; the search
    resumes after the match. *)
Fixpoint questionPattern_find (fuel : nat) (text : string) : list string :=
  match fuel with
  | O => []
  | S fuel' =>
      match cut marker_open text with
      | None => []
      | Some (_, after_open) =>
          match cut marker_close after_open with
          | None => []
          | Some (body, rest) => body :: questionPattern_find fuel' rest
          end
      end
  end.

(** A match takes at least one character, so the length of the text
    bounds the number of matches. *)
Definition questionPattern_FindAll (text : string) : list string :=
  questionPattern_find (S (String.length text)) text.

Section Detector.

(** [json.Unmarshal] into a [map[string]any], [None] for an error. *)
Variable unmarshal : string -> option (gmap string any).

(** Modelled from the spec: the body of [detectQuestions] is elided in
    the sources ("unchanged"); the pattern, the [Question] type and
    the tests are there.  By the specification the span enclosed by a
    marker is parsed as a JSON object containing a "questions" array;
    an element gives a Question with its question text, its header and
    its options, each option having at least a label; when the span is
    not valid JSON or an element lacks a required field, the marker
    contributes no Question at all. *)
Definition marker_option (o : any) : option (gmap string any) :=
  match o with
  | VMap m =>
      match m !! "label" with
      | Some (VStr _) => Some m
      | _ => None
      end
  | _ => None
  end.

(** Modelled from the spec: the Question an element of the "questions"
    array gives, none when the element is not an object with a string
    "question", a string "header" and an "options" array of options. *)
Definition marker_question (elem : any) : option Question :=
  match elem with
  | VMap m =>
      match m !! "question", m !! "header", m !! "options" with
      | Some (VStr q), Some (VStr h), Some (VSlice opts) =>
          match mapM marker_option opts with
          | Some os => Some (mkQuestion q h os)
          | None => None
          end
      | _, _, _ => None
      end
  | _ => None
  end.

(** Modelled from the spec: what one marker contributes, all the
    Questions of its elements or none at all. *)
Definition marker_questions (body : string) : list Question :=
  match unmarshal body with
  | Some payload =>
      match payload !! "questions" with
      | Some (VSlice elems) =>
          match mapM marker_question elems with
          | Some qs => qs
          | None => []
          end
      | _ => []
      end
  | None => []
  end.

(** Modelled from the spec: [func detectQuestions(text string) []Question],
    whose body is elided in the sources.  Every marker of the text is
    processed and the results are concatenated in order of appearance. *)
Definition detectQuestions (text : string) : go (list Question) :=
  for_range (questionPattern_FindAll text)
    (fun questions body => Ok (questions ++ marker_questions body)) [].

(** [func DetectQuestions(text string) []Question] *)
Definition DetectQuestions (text : string) : go (list Question) :=
  detectQuestions text.

End Detector.

(** *** The words of the specification about markers *)

(** [text] holds a marker with the enclosed span [body]. *)
Definition marker_at (body text : string) : Prop :=
  exists before after,
    text = before +:+ marker_open +:+ body +:+ marker_close +:+ after.




Section Markers.

Variable unmarshal : string -> option (gmap string any).




End Markers.




(** *** Run options and the runner interface *)

(** [type RunOptions struct] *)
Record RunOptions : Type := mkRunOptions {
  Prompt : string;
  SystemPrompt : string;
  Config : Config.Config;
  SessionID_ : string;
  CWD : string;
  Command : string
}.

(** What [Run] hands back: the event channel and the error channel,
    each by what the worker goroutine does to it. *)
Definition Streams : Type := list (chan_op Event) * list (chan_op Os.error).

(** An implementation of [type Runner interface { Run(opts RunOptions)
    (<-chan Event, <-chan error) }], by its method. *)
Record RunnerImpl : Type := mkRunnerImpl {
  Run : Os.World -> RunOptions -> Streams
}.

(** A value of the interface type: nil or an implementation. *)
Definition Runner : Type := option RunnerImpl.

(** *** registry.go *)

(** [var registry = map[string]func() Runner{}], threaded as state. *)
Definition Registry : Type := gmap string (unit -> Runner).

Definition registry_init : Registry := ∅.

(** [func Register(name string, constructor func() Runner)] *)
Definition Register (name : string) (constructor : unit -> Runner)
    (registry : Registry) : Registry :=
  <[name := constructor]> registry.

(** The keys in the order the [range] loop visits them.  Go leaves the
    order unspecified; [map_to_list] fixes one. *)
Definition range_keys (registry : Registry) : list string :=
  (map_to_list registry).*1.

(** [func registeredNames() []string] *)
Definition registeredNames (registry : Registry) : list string :=
  let names := fold_left (fun names k => names ++ [k]) (range_keys registry) [] in
  sort_Strings names.

(** [func NewRunner(cfg config.Config) (Runner, error)] *)
Definition NewRunner (registry : Registry) (cfg : Config.Config)
  : Runner * option Os.error :=
  let name := Config.Command (Config.Agent cfg) in
  match registry !! name with
  | None =>
      (None,
       Some ("unsupported runner: " +:+ strconv_Quote name
             +:+ " (available: " +:+ fmt_v_strings (registeredNames registry)
             +:+ ")"))
  | Some constructor => (constructor tt, None)
  end.



(** *** Prompts *)

(** [b.WriteString(s)] on a [strings.Builder], by its contents. *)
Definition WriteString (b s : string) : string := b +:+ s.

(** Two line feeds. *)
Definition blank_line : string := String newline (String newline "").

(** The sentence that points the agent to the knowledge directory. *)
Definition knowledge_hint : string :=
  "Additional project knowledge, architectural context, and past learnings can be found in `.spektacular/knowledge/`. Use your available tools to explore this directory as needed.".

(** [func BuildPromptWithHeader(content string, header string) string] *)
Definition BuildPromptWithHeader (content header : string) : string :=
  let b := "" in
  let b := WriteString b (knowledge_hint +:+ blank_line) in
  let b :=
    WriteString b
      ("---" +:+ blank_line +:+ "# " +:+ header +:+ blank_line +:+ content) in
  b.

(** [func BuildPrompt(specContent string) string] *)
Definition default_header : string := "Specification to Plan".

Definition BuildPrompt (specContent : string) : string :=
  BuildPromptWithHeader specContent default_header.

(** *** The registry in the tests *)

(** [delete(registry, name)] *)
Definition registry_delete (name : string) (registry : Registry) : Registry :=
  delete name registry.

End Runner.

(* ===================================================================== *)
(** ** internal/runner/claude: claude.go                                  *)
(* ===================================================================== *)

Module Claude.

Import Runner.

(** *** bufio.Scanner with the default split function ScanLines *)

(** How scanning ended: the input was exhausted, or a line did not fit
    the buffer ([bufio.ErrTooLong]). *)
Inductive scan_end : Type :=
  | AtEOF
  | TooLong.

(** [dropCR]: a line loses one trailing carriage return. *)
Fixpoint dropCR (line : string) : string :=
  match line with
  | "" => ""
  | String c "" => if Ascii.eqb c "013" then "" else line
  | String c r => String c (dropCR r)
  end.

(** The lines [scanner.Scan] yields on [input] and how scanning ends,
    [cur] being the [n] bytes of the current line read so far.  A line
    ends at a line feed or, when not empty, at the end of the input.
    The buffer holds [max] bytes at most: once [max] bytes of a line
    are read and no line feed is among them, scanning stops with
    [TooLong] and the rest of the input is not read. *)
Fixpoint scan_lines (max : N) (cur : string) (n : N) (input : string)
  : list string * scan_end :=
  match input with
  | "" => (if (n =? 0)%N then [] else [dropCR cur], AtEOF)
  | String c rest =>
      if Ascii.eqb c newline then
        let '(lines, ending) := scan_lines max "" 0 rest in
        (dropCR cur :: lines, ending)
      else if (max <=? n + 1)%N then ([], TooLong)
      else scan_lines max (cur +:+ String c "") (n + 1) rest
  end.

(** [scanner.Buffer(make([]byte, 1024*1024), 1024*1024)] *)
Definition maxTokenSize : N := 1024 * 1024.

Definition Scanner (input : string) : list string * scan_end :=
  scan_lines maxTokenSize "" 0 input.

Section Adapter.

(** [json.Unmarshal] into a [map[string]any], [None] for an error. *)
Variable unmarshal : string -> option (gmap string any).

(** *** func run *)

(** The command line [run] assembles. *)
Definition command_line (opts : RunOptions) : list string :=
  let cfg := Config opts in
  let cmd := [Config.Command (Config.Agent cfg); "-p"; Prompt opts] in
  let cmd :=
    if negb (String.eqb (SystemPrompt opts) "")
    then cmd ++ ["--system-prompt"; SystemPrompt opts]
    else cmd in
  let cmd := cmd ++ Config.Args (Config.Agent cfg) in
  let cmd :=
    if (0 <? length (Config.AllowedTools (Config.Agent cfg)))%nat
    then cmd ++ ["--allowedTools";
                 strings_Join (Config.AllowedTools (Config.Agent cfg)) ","]
    else cmd in
  let cmd :=
    if Config.DangerouslySkipPermissions (Config.Agent cfg)
    then cmd ++ ["--dangerously-skip-permissions"]
    else cmd in
  let cmd :=
    if negb (String.eqb (SessionID_ opts) "")
    then cmd ++ ["--resume"; SessionID_ opts]
    else cmd in
  cmd.

(** One turn of [for scanner.Scan() { ... }]: [events] are the events
    sent on the channel so far.  The debug log, a copy of the raw lines
    in a file when it is enabled, is left out. *)
Definition scan_body (events : list Event) (line : string) : go (list Event) :=
  if String.eqb line "" then Ok events
  else
    match unmarshal line with
    | None => Ok events
    | Some data =>
        let '(eventType, _) := assert_string (index data "type") in
        Ok (events ++ [mkEvent eventType data])
    end.

(** The read loop over the process output. *)
Definition scan_loop (output : string) : go (list Event) :=
  for_range (fst (Scanner output)) scan_body [].

(** [func run(opts runner.RunOptions, events chan<- runner.Event) error]:
    the events sent and the error returned. *)
Definition run (w : Os.World) (opts : RunOptions)
  : go (list Event * option Os.error) :=
  let cmd := command_line opts in
  let '(cwd, err) :=
    if String.eqb (CWD opts) "" then Os.Getwd w else (CWD opts, None) in
  match err with
  | Some err => Ok ([], Some (Os.wrap "getting working directory" err))
  | None =>
      let proc := Os.Command w cmd cwd in
      match Os.StdoutPipe_err proc with
      | Some err => Ok ([], Some (Os.wrap "creating stdout pipe" err))
      | None =>
          match Os.Start_err proc with
          | Some err => Ok ([], Some (Os.wrap "starting claude process" err))
          | None =>
              do events <~ scan_loop (Os.stdout proc) ;;
              match Os.Wait_err proc with
              | Some err =>
                  Ok (events, Some (Os.wrap "claude process exited with error" err))
              | None => Ok (events, None)
              end
          end
      end
  end.

(** [func (c *Claude) Run(opts runner.RunOptions)
    (<-chan runner.Event, <-chan error)]: what the goroutine does to
    the two channels.  The error channel has room for one value, so
    its send does not wait for a reader; the event channel has room
    for 64, and a send that waits for the reader delays the goroutine
    without changing what it sends.  The deferred close of the event
    channel comes last. *)
Definition Run (w : Os.World) (opts : RunOptions) : go Streams :=
  do r <~ run w opts ;;
  let '(events, err) := r in
  let errc :=
    match err with
    | Some err => [Send err]
    | None => []
    end ++ [Close] in
  Ok (map Send events ++ [Close], errc).

(** *** The words of the specification about the adapter *)

(** The "type" field of a decoded object, empty when there is none. *)
Definition type_field (data : gmap string any) : string :=
  match data !! "type" with
  | Some (VStr s) => s
  | _ => ""
  end.

(** The event a line gives rise to: none for an empty line and for a
    line the decoder rejects, one event otherwise. *)
Definition line_event (line : string) : option Event :=
  if String.eqb line "" then None
  else
    match unmarshal line with
    | Some data => Some (mkEvent (type_field data) data)
    | None => None
    end.

End Adapter.

(** The line decodes as a JSON object. *)
Definition decodes_as_object (line : string) : Prop :=
  exists m, Json.decode line = Some (VMap m).

(** The command line, part by part. *)
Definition spec_command_line (opts : RunOptions) : list string :=
  let agent := Config.Agent (Config opts) in
  [Config.Command agent; "-p"; Prompt opts]
  ++ (if String.eqb (SystemPrompt opts) "" then []
      else ["--system-prompt"; SystemPrompt opts])
  ++ Config.Args agent
  ++ (match Config.AllowedTools agent with
      | [] => []
      | _ :: _ => ["--allowedTools"; strings_Join (Config.AllowedTools agent) ","]
      end)
  ++ (if Config.DangerouslySkipPermissions agent
      then ["--dangerously-skip-permissions"] else [])
  ++ (if String.eqb (SessionID_ opts) "" then []
      else ["--resume"; SessionID_ opts]).

(** The directory and the process of an invocation. *)
Definition work_dir (w : Os.World) (opts : RunOptions) : string :=
  if String.eqb (CWD opts) "" then (Os.Getwd w).1 else CWD opts.

Definition process (w : Os.World) (opts : RunOptions) : Os.Proc :=
  Os.Command w (command_line opts) (work_dir w opts).

(** What can go wrong in an invocation. *)
Definition getwd_failed (w : Os.World) (opts : RunOptions) : Prop :=
  CWD opts = "" /\ is_Some (Os.Getwd w).2.

Definition pipe_failed (w : Os.World) (opts : RunOptions) : Prop :=
  is_Some (Os.StdoutPipe_err (process w opts)).

Definition launch_failed (w : Os.World) (opts : RunOptions) : Prop :=
  is_Some (Os.Start_err (process w opts)).

Definition wait_failed (w : Os.World) (opts : RunOptions) : Prop :=
  is_Some (Os.Wait_err (process w opts)).


(** No line feed among the bytes. *)
Fixpoint no_newline (s : string) : Prop :=
  match s with
  | "" => True
  | String c r => c <> newline /\ no_newline r
  end.



(** [func New() *Claude], with the decoder of [encoding/json]; a
    goroutine that panics sends and closes nothing. *)
Definition New (_ : unit) : RunnerImpl :=
  mkRunnerImpl (fun w opts =>
    match Run Json.Unmarshal w opts with
    | Ok streams => streams
    | Panic _ => ([], [])
    end).

(** [func init() { runner.Register("claude", func() runner.Runner
    { return New() }) }] *)
Definition init (registry : Registry) : Registry :=
  Register "claude" (fun _ => Some (New tt)) registry.

End Claude.

(* ===================================================================== *)
(** ** The output of a process, line by line                              *)
(* ===================================================================== *)

Module Output.

(** The bytes of a sequence of lines, a line feed after each. *)
Fixpoint unlines (lines : list string) : string :=
  match lines with
  | [] => ""
  | line :: rest => line +:+ String newline (unlines rest)
  end.

(** The carriage return. *)
Definition cr : string := String "013" "".

(** The line ends in a carriage return. *)
Fixpoint ends_with_cr (line : string) : bool :=
  match line with
  | "" => false
  | String c "" => Ascii.eqb c "013"
  | String _ rest => ends_with_cr rest
  end.

(** A line the scanner can hold: no line feed in it, and fewer bytes
    than the buffer has. *)
Definition fits (line : string) : Prop :=
  Claude.no_newline line /\
  (N.of_nat (String.length line) < Claude.maxTokenSize)%N.

End Output.

(* ===================================================================== *)
(** ** Test data                                                          *)
(* ===================================================================== *)

Module Fixtures.

Import Runner.

(** The events of [runner_test.go]. *)
Definition ev_text_blocks : Event :=
  mkEvent "assistant"
    {[ "message" := VMap {[ "content" := VSlice
         [ VMap {[ "type" := VStr "text"; "text" := VStr "hello" ]};
           VMap {[ "type" := VStr "tool_use"; "name" := VStr "Bash" ]};
           VMap {[ "type" := VStr "text"; "text" := VStr " world" ]} ] ]} ]}.

Definition ev_result_bare : Event := mkEvent "result" ∅.

Definition ev_result_error : Event :=
  mkEvent "result" {[ "is_error" := VBool true ]}.

Definition ev_result_text : Event :=
  mkEvent "result" {[ "result" := VStr "plan text" ]}.

Definition ev_assistant_with_result : Event :=
  mkEvent "assistant" {[ "result" := VStr "plan text"; "is_error" := VBool true ]}.

Definition ev_tool_use : Event :=
  mkEvent "assistant"
    {[ "message" := VMap {[ "content" := VSlice
         [ VMap {[ "type" := VStr "tool_use"; "name" := VStr "Bash";
                   "input" := VMap {[ "command" := VStr "ls" ]} ]};
           VMap {[ "type" := VStr "text"; "text" := VStr "output" ]} ] ]} ]}.

(** An assistant event whose payload has none of the expected shape. *)
Definition ev_misshapen : Event :=
  mkEvent "assistant"
    {[ "session_id" := VNum "7";
       "message" := VMap {[ "content" := VSlice
         [ VStr "stray"; VNil; VSlice [];
           VMap {[ "type" := VStr "text"; "text" := VNum "1" ]};
           VMap {[ "type" := VMap ∅ ]};
           VMap {[ "type" := VStr "text"; "text" := VStr "kept" ]} ] ]} ]}.

(** The texts of the detector tests and of scenario C. *)
Definition text_finds_question : string :=
  dq "some text <!--QUESTION:{'questions':[{'question':'Which approach?','header':'Approach','options':[{'label':'A'},{'label':'B'}]}]}--> more".

Definition text_invalid_json : string := "<!--QUESTION:not-valid-json-->".

Definition text_multiline : string :=
  dq "<!--QUESTION:{'questions':[{'question':'Q?','header':'H','options':[{'label':'X'}]}]}-->".

Definition text_scenario_c : string :=
  dq "Pick one <!--QUESTION:{'questions':[{'question':'Which DB?','header':'Database','options':[{'label':'SQL'},{'label':'NoSQL'}]}]}--> thanks".

(** A marker over several lines between a malformed one and one whose
    second element lacks its header. *)
Definition body_two_lines : string :=
  dq "{'questions':
  [{'question':'Q?','header':'H','options':[{'label':'X'}]}]}".

Definition body_lacks_header : string :=
  dq "{'questions':[{'question':'A?','header':'H','options':[]},{'question':'B?','options':[]}]}".

Definition text_mixed : string :=
  "intro <!--QUESTION:{oops-->, then " +:+ marker_open +:+ body_two_lines
  +:+ marker_close +:+ " and " +:+ marker_open +:+ body_lacks_header
  +:+ marker_close +:+ " end".

Definition question_q : Question := mkQuestion "Q?" "H" [ {[ "label" := VStr "X" ]} ].




(** Configurations, options and worlds. *)
Definition cfg_claude : Config.Config :=
  Config.mkConfig
    (Config.mkAgentConfig "claude" ["--output-format"; "stream-json"; "--verbose"]
       ["Bash"; "Read"; "Write"] false)
    (Config.mkDebugConfig false "").

Definition cfg_named (name : string) : Config.Config :=
  Config.mkConfig (Config.mkAgentConfig name [] [] false)
    (Config.mkDebugConfig false "").

Definition opts_start : RunOptions :=
  mkRunOptions "plan this" "you are a planner" cfg_claude "" "/work" "plan".

Definition opts_resume : RunOptions :=
  mkRunOptions "OAuth2" "" cfg_claude "sess-123" "/work" "plan".



(** The output of scenarios A and B around an empty line, the literal
    null and a line that is not JSON. *)
Definition output_stream : string :=
  dq "{'type':'system','session_id':'abc'}
null

garbage
{'type':'result','result':'done','is_error':false}
".

Definition world_stream : Os.World :=
  Os.mkWorld ("/work", None) (fun _ _ => Os.mkProc None None output_stream None).





(** [type stubRunner struct{}] of the tests: both channels are closed
    at once. *)
Definition stubRunner : RunnerImpl := mkRunnerImpl (fun _ _ => ([Close], [Close])).

Definition registry_test : Registry :=
  Register "test-runner" (fun _ => Some stubRunner) (Claude.init registry_init).

(** A constructor that returns a nil Runner. *)
Definition registry_ghost : Registry :=
  Register "ghost" (fun _ => None) registry_init.


(** Two worlds that differ in what [os.Getwd] reports only. *)
Definition world_stream_no_dir : Os.World :=
  Os.mkWorld ("", Some "getwd: no such file or directory") (Os.Command world_stream).

(** The prompt of the plan for feature 8, cut short. *)
Definition prompt_feature_8 : string :=
  "Additional project knowledge, architectural context, and past learnings can be found in `.spektacular/knowledge/`. Use your available tools to explore this directory as needed.

---

# Specification to Plan

# Feature: 8 Abstract Runner
".

Definition content_feature_8 : string :=
  "# Feature: 8 Abstract Runner
".

(** The lines of [output_stream] as the process writes them, and the
    same with a carriage return before each line feed. *)
Definition lines_stream : list string :=
  [ dq "{'type':'system','session_id':'abc'}"; "null"; ""; "garbage";
    dq "{'type':'result','result':'done','is_error':false}" ].

Definition lines_stream_crlf : list string :=
  map (fun l => l +:+ Output.cr) lines_stream.

End Fixtures.

(* ===================================================================== *)
(** * Properties                                                          *)
(* ===================================================================== *)

(** ** Loops and strings *)

Module GoRtFacts.

(** A loop whose body appends what [sel] selects collects the selected
    elements in order. *)
Lemma for_range_collect {A B} (sel : A -> list B)
    (body : list B -> A -> go (list B)) (xs : list A) :
  (forall acc x, body acc x = Ok (acc ++ sel x)) ->
  forall acc, for_range xs body acc = Ok (acc ++ concat (map sel xs)).
Proof.
  intros Hbody. induction xs as [|x xs IH]; intros acc; simpl.
  - by rewrite app_nil_r.
  - rewrite Hbody. simpl. rewrite IH. by rewrite <- app_assoc.
Qed.

Lemma concat_map_option {A B} (sel : A -> option B) (xs : list A) :
  concat (map (fun x => option_list (sel x)) xs) = omap sel xs.
Proof.
  induction xs as [|x xs IH]; simpl; [done|].
  rewrite IH. by destruct (sel x).
Qed.

(** *** Append *)

Lemma sapp_nil_l (s : string) : "" +:+ s = s.
Proof. reflexivity. Qed.

Lemma sapp_cons (c : ascii) (a b : string) :
  String c a +:+ b = String c (a +:+ b).
Proof. reflexivity. Qed.

Lemma sapp_nil_r (s : string) : s +:+ "" = s.
Proof. induction s as [|c s IH]; [done | by rewrite sapp_cons, IH]. Qed.

Lemma sapp_assoc (a b c : string) : (a +:+ b) +:+ c = a +:+ b +:+ c.
Proof. induction a as [|x a IH]; [done | by rewrite !sapp_cons, IH]. Qed.

Lemma sapp_length (a b : string) :
  String.length (a +:+ b) = String.length a + String.length b.
Proof.
  induction a as [|x a IH]; [done|]. rewrite sapp_cons. simpl. by rewrite IH.
Qed.

(** Two ways of splitting one string: one of the first parts extends
    the other. *)
Lemma sapp_eq_inv (a b c d : string) :
  a +:+ b = c +:+ d ->
  (exists k, c = a +:+ k /\ b = k +:+ d) \/ (exists k, a = c +:+ k /\ d = k +:+ b).
Proof.
  revert c. induction a as [|x a IH]; intros c H.
  - left. exists c. by rewrite !sapp_nil_l in *.
  - destruct c as [|y c].
    + right. exists (String x a). by rewrite !sapp_nil_l in *.
    + rewrite !sapp_cons in H. injection H as -> H.
      destruct (IH _ H) as [[k [-> ->]]|[k [-> ->]]].
      * left. by exists k.
      * right. by exists k.
Qed.

(** *** Prefixes and occurrences *)

Lemma trim_prefix_Some (p s r : string) :
  trim_prefix p s = Some r <-> s = p +:+ r.
Proof.
  revert s. induction p as [|a p IH]; intros s; simpl.
  - rewrite sapp_nil_l. split; [by intros [= ->] | by intros ->].
  - rewrite sapp_cons. destruct s as [|b s]; [split; [done | discriminate]|].
    destruct (Ascii.eqb_spec a b) as [->|Hne].
    + rewrite IH. split; [by intros -> | by intros [= ->]].
    + split; [done | intros [= ? ?]; by subst].
Qed.




(** [cut] splits at an occurrence of the separator ... *)
Lemma cut_Some (sep s before after : string) :
  cut sep s = Some (before, after) -> s = before +:+ sep +:+ after.
Proof.
  revert before. induction s as [|c s IH]; intros before; simpl.
  - destruct (trim_prefix sep "") eqn:E; [|done].
    intros [= <- <-]. by apply trim_prefix_Some in E.
  - destruct (trim_prefix sep (String c s)) eqn:E.
    + intros [= <- <-]. by apply trim_prefix_Some in E.
    + destruct (cut sep s) as [[b a]|] eqn:Ec; [|done].
      intros [= <- <-]. rewrite sapp_cons. f_equal. by apply IH.
Qed.

(** ... and finds none only when there is none. *)
Lemma cut_None (sep s : string) : cut sep s = None -> ~ occurs sep s.
Proof.
  induction s as [|c s IH]; simpl.
  - destruct (trim_prefix sep "") eqn:E; [done|]. intros _ (b & a & H).
    destruct b; [|done]. rewrite sapp_nil_l in H.
    assert (trim_prefix sep "" = Some a) by by apply trim_prefix_Some.
    congruence.
  - destruct (trim_prefix sep (String c s)) eqn:E; [done|].
    destruct (cut sep s) as [[b a]|] eqn:Ec; [done|].
    intros _ (b & a & H). destruct b as [|x b].
    + rewrite sapp_nil_l in H.
      assert (trim_prefix sep (String c s) = Some a) by by apply trim_prefix_Some.
      congruence.
    + rewrite sapp_cons in H. injection H as -> ->. apply IH; [done|].
      by exists b, a.
Qed.


End GoRtFacts.

(** ** Events *)

Module EventFacts.

Import GoRtFacts Runner Fixtures.

Example TestEvent_SessionID :
  SessionID (mkEvent "system" {[ "session_id" := VStr "sess-123" ]}) = Ok "sess-123".
Proof. reflexivity. Qed.

Example TestEvent_SessionID_Missing : SessionID (mkEvent "system" ∅) = Ok "".
Proof. reflexivity. Qed.

Example TestEvent_IsError_True : IsError ev_result_error = Ok true.
Proof. reflexivity. Qed.

Example TestEvent_TextContent_ExtractsTextBlocks :
  TextContent ev_text_blocks = Ok ("hello" +:+ String newline " world").
Proof. vm_compute. reflexivity. Qed.

Example TestEvent_ToolUses :
  (fun tools => (length tools, (fun t => t !! "name") <$> tools))
    <$> (match ToolUses ev_tool_use with Ok t => Some t | Panic _ => None end)
  = Some (1, [Some (VStr "Bash")]).
Proof. vm_compute. reflexivity. Qed.

(** The chain of assertions at the head of [TextContent] and
    [ToolUses] reads [payload.message.content]. *)
Lemma content_chain (e : Event) :
  (assert_slice (index (assert_map (index (Data e) "message")).1 "content")).1
  = message_content e.
Proof.
  unfold message_content, index.
  destruct (Data e !! "message") as [[]|]; simpl; try by rewrite lookup_empty.
  by destruct (_ !! "content") as [[]|].
Qed.

Lemma TextContent_body_selects (texts : list string) (item : any) :
  TextContent_body texts item = Ok (texts ++ option_list (text_block item)).
Proof.
  unfold TextContent_body, text_block, index.
  destruct item; simpl; rewrite ?lookup_empty; simpl; rewrite ?app_nil_r; try done.
  destruct (m !! "type") as [[]|]; simpl; rewrite ?app_nil_r; try done.
  destruct (String.eqb s "text"); [|by destruct (m !! "text") as [[]|]; rewrite app_nil_r].
  destruct (m !! "text") as [[]|]; simpl; rewrite ?app_nil_r; done.
Qed.

Lemma ToolUses_body_selects (tools : list (gmap string any)) (item : any) :
  ToolUses_body tools item = Ok (tools ++ option_list (tool_use_block item)).
Proof.
  unfold ToolUses_body, tool_use_block, index.
  destruct item; simpl; rewrite ?lookup_empty; simpl; rewrite ?app_nil_r; try done.
  destruct (m !! "type") as [[]|]; simpl; rewrite ?app_nil_r; try done.
  destruct (String.eqb s "tool_use"); simpl; by rewrite ?app_nil_r.
Qed.

(** [TextContent] on an assistant event, whatever the payload. *)
Lemma TextContent_assistant (e : Event) :
  Type_ e = "assistant" ->
  TextContent e
  = Ok (strings_Join (omap text_block (message_content e)) (String newline "")).
Proof.
  intros Hty. unfold TextContent. rewrite Hty. simpl.
  pose proof (content_chain e) as Hc.
  destruct (assert_map (index (Data e) "message")) as [msg ?].
  simpl in Hc.
  destruct (assert_slice (index msg "content")) as [content ?].
  simpl in Hc. subst content.
  rewrite (for_range_collect (fun x => option_list (text_block x)));
    [|apply TextContent_body_selects].
  simpl. by rewrite concat_map_option.
Qed.

(** [ToolUses] on an assistant event, whatever the payload. *)
Lemma ToolUses_assistant (e : Event) :
  Type_ e = "assistant" ->
  ToolUses e = Ok (omap tool_use_block (message_content e)).
Proof.
  intros Hty. unfold ToolUses. rewrite Hty. simpl.
  pose proof (content_chain e) as Hc.
  destruct (assert_map (index (Data e) "message")) as [msg ?].
  simpl in Hc.
  destruct (assert_slice (index msg "content")) as [content ?].
  simpl in Hc. subst content.
  rewrite (for_range_collect (fun x => option_list (tool_use_block x)));
    [|apply ToolUses_body_selects].
  simpl. by rewrite concat_map_option.
Qed.

Lemma not_kind (e : Event) (kind : string) :
  Type_ e <> kind -> String.eqb (Type_ e) kind = false.
Proof. intros H. by apply String.eqb_neq. Qed.

(** C2.  An event that is not an assistant event has no text content;
    the text content of an assistant event is the text fields of the
    blocks of type "text" of [payload.message.content], in their
    order, joined by a line feed. *)
Theorem TextContent_spec (e : Event) :
  (Type_ e <> "assistant" -> TextContent e = Ok "") /\
  (Type_ e = "assistant" ->
   TextContent e
   = Ok (strings_Join (omap text_block (message_content e)) (String newline ""))).
Proof.
  split; [|apply TextContent_assistant].
  intros Hty. unfold TextContent. by rewrite (not_kind _ _ Hty).
Qed.

Lemma TextContent_spec_witness :
  (Type_ ev_result_bare <> "assistant" /\ TextContent ev_result_bare = Ok "") /\
  (Type_ ev_text_blocks = "assistant" /\
   TextContent ev_text_blocks = Ok ("hello" +:+ String newline " world")).
Proof.
  split; split.
  - discriminate.
  - apply (proj1 (TextContent_spec ev_result_bare)). discriminate.
  - reflexivity.
  - apply (proj2 (TextContent_spec ev_text_blocks)). reflexivity.
Defined.

(** C3.  On an event that is not a result event [ResultText] is empty
    and [IsError] is false; on a result event they are the payload's
    "result" string and "is_error" boolean (empty and false when the
    field is absent or of another type); neither panics, whatever the
    event. *)
Theorem ResultText_IsError_spec (e : Event) :
  (Type_ e <> "result" -> ResultText e = Ok "" /\ IsError e = Ok false) /\
  (Type_ e = "result" ->
   ResultText e = Ok (payload_result e) /\ IsError e = Ok (payload_is_error e)) /\
  returns (ResultText e) /\ returns (IsError e).
Proof.
  assert (Hres : Type_ e = "result" ->
    ResultText e = Ok (payload_result e) /\ IsError e = Ok (payload_is_error e)).
  { intros Hty. unfold ResultText, IsError, IsResult, payload_result,
      payload_is_error, index. rewrite Hty. simpl.
    split; by destruct (Data e !! _) as [[]|]. }
  assert (Hnot : Type_ e <> "result" -> ResultText e = Ok "" /\ IsError e = Ok false).
  { intros Hty. unfold ResultText, IsError, IsResult. by rewrite (not_kind _ _ Hty). }
  split; [done|]. split; [done|].
  destruct (String.eq_dec (Type_ e) "result") as [Hty|Hty].
  - destruct (Hres Hty) as [-> ->]. split; eexists; reflexivity.
  - destruct (Hnot Hty) as [-> ->]. split; eexists; reflexivity.
Qed.

Lemma ResultText_IsError_spec_witness :
  (Type_ ev_assistant_with_result <> "result" /\
   ResultText ev_assistant_with_result = Ok "" /\
   IsError ev_assistant_with_result = Ok false) /\
  (Type_ ev_result_text = "result" /\
   ResultText ev_result_text = Ok "plan text" /\
   IsError ev_result_text = Ok false).
Proof.
  split; split.
  - discriminate.
  - apply (proj1 (ResultText_IsError_spec ev_assistant_with_result)). discriminate.
  - reflexivity.
  - apply (proj1 (proj2 (ResultText_IsError_spec ev_result_text))). reflexivity.
Defined.

(** C10.  Whatever the payload, [SessionID], [TextContent] and
    [ToolUses] return without a panic.  [SessionID] is the empty
    string unless the payload holds a string "session_id".  On an
    assistant event the other two go through the blocks of
    [payload.message.content], which is empty when "message" is
    missing or not a mapping or "content" is not a sequence, and skip
    every block that does not conform; on other events they are
    empty. *)
Theorem accessors_total (e : Event) :
  returns (SessionID e) /\ returns (TextContent e) /\ returns (ToolUses e) /\
  (SessionID e
   = Ok (match Data e !! "session_id" with Some (VStr s) => s | _ => "" end)) /\
  (TextContent e
   = Ok (if String.eqb (Type_ e) "assistant"
         then strings_Join (omap text_block (message_content e)) (String newline "")
         else "")) /\
  (ToolUses e
   = Ok (if String.eqb (Type_ e) "assistant"
         then omap tool_use_block (message_content e)
         else [])).
Proof.
  assert (Hs : SessionID e
    = Ok (match Data e !! "session_id" with Some (VStr s) => s | _ => "" end)).
  { unfold SessionID, index. by destruct (Data e !! _) as [[]|]. }
  assert (Ht : TextContent e
    = Ok (if String.eqb (Type_ e) "assistant"
          then strings_Join (omap text_block (message_content e)) (String newline "")
          else "")).
  { destruct (String.eqb_spec (Type_ e) "assistant") as [Hty|Hty].
    - by apply TextContent_assistant.
    - unfold TextContent. by rewrite (not_kind _ _ Hty). }
  assert (Hu : ToolUses e
    = Ok (if String.eqb (Type_ e) "assistant"
          then omap tool_use_block (message_content e) else [])).
  { destruct (String.eqb_spec (Type_ e) "assistant") as [Hty|Hty].
    - by apply ToolUses_assistant.
    - unfold ToolUses. by rewrite (not_kind _ _ Hty). }
  repeat split; try done.
  - rewrite Hs. by eexists.
  - rewrite Ht. by eexists.
  - rewrite Hu. by eexists.
Qed.

(** Blocks that do not conform are passed over, the others kept. *)
Example accessors_on_misshapen :
  SessionID ev_misshapen = Ok "" /\
  TextContent ev_misshapen = Ok "kept" /\
  ToolUses ev_misshapen = Ok [].
Proof. vm_compute. done. Qed.

Example accessors_without_message :
  TextContent (mkEvent "assistant" {[ "message" := VStr "no mapping" ]}) = Ok "" /\
  ToolUses (mkEvent "assistant" {[ "message" := VMap {[ "content" := VNil ]} ]}) = Ok [] /\
  TextContent (mkEvent "assistant" ∅) = Ok "".
Proof. vm_compute. done. Qed.

End EventFacts.

(** ** The question detector *)

Module DetectorFacts.

Import GoRtFacts Runner Fixtures.

(** *** The pattern *)



Lemma cut_no_occurrence (sep s : string) : ~ occurs sep s -> cut sep s = None.
Proof.
  intros Hocc. destruct (cut sep s) as [[b a]|] eqn:E; [|done].
  exfalso. apply Hocc. apply cut_Some in E. by exists b, a.
Qed.

Lemma find_S (fuel : nat) (text : string) :
  questionPattern_find (S fuel) text =
  match cut marker_open text with
  | None => []
  | Some (_, after_open) =>
      match cut marker_close after_open with
      | None => []
      | Some (body, rest) => body :: questionPattern_find fuel rest
      end
  end.
Proof. reflexivity. Qed.

(** Fuel above the length of the text is not used. *)
Lemma find_fuel (f1 : nat) : forall (f2 : nat) (text : string),
  String.length text < f1 -> String.length text < f2 ->
  questionPattern_find f1 text = questionPattern_find f2 text.
Proof.
  induction f1 as [|f1 IH]; intros f2 text H1 H2; [lia|].
  destruct f2 as [|f2]; [lia|]. rewrite !find_S.
  destruct (cut marker_open text) as [[before after_open]|] eqn:E1; [|done].
  destruct (cut marker_close after_open) as [[body rest]|] eqn:E2; [|done].
  apply cut_Some in E1, E2. subst.
  rewrite !sapp_length in H1, H2. unfold marker_open, marker_close in H1, H2.
  simpl in H1, H2. f_equal. apply IH; lia.
Qed.

(** The equation of the search. *)
Lemma FindAll_unfold (text : string) :
  questionPattern_FindAll text =
  match cut marker_open text with
  | None => []
  | Some (_, after_open) =>
      match cut marker_close after_open with
      | None => []
      | Some (body, rest) => body :: questionPattern_FindAll rest
      end
  end.
Proof.
  unfold questionPattern_FindAll at 1. rewrite find_S.
  destruct (cut marker_open text) as [[before after_open]|] eqn:E1; [|done].
  destruct (cut marker_close after_open) as [[body rest]|] eqn:E2; [|done].
  f_equal. apply cut_Some in E1, E2. subst. apply find_fuel.
  - rewrite !sapp_length. unfold marker_open, marker_close. simpl. lia.
  - lia.
Qed.


Lemma FindAll_no_marker (text : string) :
  ~ occurs marker_open text -> questionPattern_FindAll text = [].
Proof. intros H. rewrite FindAll_unfold. by rewrite cut_no_occurrence. Qed.



(** *** Detection *)

Section Detection.

Variable unmarshal : string -> option (gmap string any).











End Detection.

(** *** The tests of runner_test.go and scenario C *)

Example TestDetectQuestions_FindsQuestion :
  detectQuestions Json.Unmarshal text_finds_question
  = Ok [ mkQuestion "Which approach?" "Approach"
           [ {[ "label" := VStr "A" ]}; {[ "label" := VStr "B" ]} ] ].
Proof. vm_compute. reflexivity. Qed.

Example TestDetectQuestions_NoMarker_ReturnsEmpty :
  detectQuestions Json.Unmarshal "no markers here" = Ok [].
Proof. vm_compute. reflexivity. Qed.

Example TestDetectQuestions_InvalidJSON_Skipped :
  detectQuestions Json.Unmarshal text_invalid_json = Ok [].
Proof. vm_compute. reflexivity. Qed.

Example TestDetectQuestions_MultilineMarker :
  detectQuestions Json.Unmarshal text_multiline = Ok [question_q].
Proof. vm_compute. reflexivity. Qed.

Example scenario_C :
  detectQuestions Json.Unmarshal text_scenario_c
  = Ok [ mkQuestion "Which DB?" "Database"
           [ {[ "label" := VStr "SQL" ]}; {[ "label" := VStr "NoSQL" ]} ] ].
Proof. vm_compute. reflexivity. Qed.

Example detect_mixed : detectQuestions Json.Unmarshal text_mixed = Ok [question_q].
Proof. vm_compute. reflexivity. Qed.

(** *** The claims *)












End DetectorFacts.

(** ** The Claude adapter *)

Module ClaudeFacts.

Import GoRtFacts Runner Claude Fixtures.

(** *** Command assembly *)

(** C7.  The command line is the executable name, the prompt flag and
    the prompt, the system-prompt flag and the system prompt when one
    is given, the configured arguments, the tool allow-list flag and
    the comma-joined list when the list is not empty, the
    skip-permissions flag when it is set, and the resume flag and the
    session identifier when there is one, in this order; with a
    session identifier the command line ends in the instruction to
    resume that session. *)
Theorem command_line_spec (opts : RunOptions) :
  command_line opts = spec_command_line opts /\
  (SessionID_ opts <> "" ->
   exists front, command_line opts = front ++ ["--resume"; SessionID_ opts]) /\
  (SessionID_ opts = "" ->
   command_line (mkRunOptions (Prompt opts) (SystemPrompt opts) (Config opts)
                   "fresh" (CWD opts) (Command opts))
   = command_line opts ++ ["--resume"; "fresh"]).
Proof.
  assert (Heq : forall o, command_line o = spec_command_line o).
  { intros o. unfold command_line, spec_command_line.
    destruct (String.eqb (SystemPrompt o) ""),
      (Config.AllowedTools (Config.Agent (Config o))),
      (Config.DangerouslySkipPermissions (Config.Agent (Config o))),
      (String.eqb (SessionID_ o) ""); simpl;
      rewrite <- ?app_assoc; simpl; rewrite ?app_nil_r; reflexivity. }
  split; [apply Heq|]. split.
  - intros Hsid%String.eqb_neq. rewrite Heq. unfold spec_command_line.
    rewrite Hsid. rewrite !app_assoc. by eexists.
  - intros Hsid. rewrite !Heq. unfold spec_command_line. simpl.
    rewrite Hsid. simpl. by rewrite !app_nil_r, <- !app_assoc.
Qed.

Lemma command_line_spec_witness :
  (SessionID_ opts_resume <> "" /\
   exists front, command_line opts_resume = front ++ ["--resume"; "sess-123"]) /\
  (SessionID_ opts_start = "" /\
   command_line (mkRunOptions "plan this" "you are a planner" cfg_claude
                   "fresh" "/work" "plan")
   = ["claude"; "-p"; "plan this"; "--system-prompt"; "you are a planner";
      "--output-format"; "stream-json"; "--verbose";
      "--allowedTools"; "Bash,Read,Write"] ++ ["--resume"; "fresh"]).
Proof.
  split; split.
  - discriminate.
  - apply (proj1 (proj2 (command_line_spec opts_resume))). discriminate.
  - reflexivity.
  - apply (proj2 (proj2 (command_line_spec opts_start))). reflexivity.
Defined.

(** *** The read loop *)

Section ReadLoop.

Variable unmarshal : string -> option (gmap string any).

Lemma scan_body_selects (events : list Event) (line : string) :
  scan_body unmarshal events line
  = Ok (events ++ option_list (line_event unmarshal line)).
Proof.
  unfold scan_body, line_event, type_field, index.
  destruct (String.eqb line ""); [by rewrite app_nil_r|].
  destruct (unmarshal line) as [data|]; [|by rewrite app_nil_r].
  by destruct (data !! "type") as [[]|].
Qed.

Lemma scan_loop_omap (output : string) :
  scan_loop unmarshal output
  = Ok (omap (line_event unmarshal) (Scanner output).1).
Proof.
  unfold scan_loop.
  rewrite (for_range_collect (fun l => option_list (line_event unmarshal l)));
    [|apply scan_body_selects].
  simpl. by rewrite concat_map_option.
Qed.

End ReadLoop.

(** C6 as stated fails on the line [null]: it does not decode as a
    JSON object, and an event with an empty kind and a nil payload is
    forwarded for it. *)
Lemma null_line_forwarded :
  ~ decodes_as_object "null" /\
  scan_loop Json.Unmarshal "null" = Ok [mkEvent "" ∅].
Proof.
  split; [|vm_compute; reflexivity].
  intros [m Hm]. vm_compute in Hm. discriminate.
Qed.

(** C6, amended.  In the read loop an empty line is skipped, a line
    for which the decoder reports an error is skipped, and every other
    line becomes one event, its kind the string under "type" (empty
    when there is none) and its payload the decoded map; the events
    are sent in the order of the lines.  The decoder reports no error
    for a JSON object, and for the literal null, which leaves the
    payload nil. *)
Theorem scan_loop_events
    (unmarshal : string -> option (gmap string any)) (output : string) :
  scan_loop unmarshal output
  = Ok (omap (line_event unmarshal) (Scanner output).1) /\
  (forall line data,
     Json.Unmarshal line = Some data <->
     Json.decode line = Some (VMap data) \/
     (Json.decode line = Some VNil /\ data = ∅)).
Proof.
  split; [apply scan_loop_omap|].
  intros line data. unfold Json.Unmarshal.
  destruct (Json.decode line) as [[]|];
    (split;
     [ intros H; try discriminate H; injection H as <-; auto
     | intros [H|[H H']]; try discriminate H; try (injection H as <-);
       subst; done ]).
Qed.

Lemma scan_loop_events_witness :
  (Scanner output_stream).1
  = [ dq "{'type':'system','session_id':'abc'}"; "null"; ""; "garbage";
      dq "{'type':'result','result':'done','is_error':false}" ] /\
  scan_loop Json.Unmarshal output_stream
  = Ok [ mkEvent "system" {[ "type" := VStr "system"; "session_id" := VStr "abc" ]};
         mkEvent "" ∅;
         mkEvent "result" {[ "type" := VStr "result"; "result" := VStr "done";
                             "is_error" := VBool false ]} ].
Proof.
  split; [vm_compute; reflexivity|].
  rewrite (proj1 (scan_loop_events Json.Unmarshal output_stream)).
  vm_compute. reflexivity.
Defined.

(** Scenarios A and B. *)
Example scenario_A_B :
  match scan_loop Json.Unmarshal output_stream with
  | Ok [a; _; b] =>
      SessionID a = Ok "abc" /\ IsResult b = true /\ IsError b = Ok false /\
      ResultText b = Ok "done"
  | _ => False
  end.
Proof. vm_compute. done. Qed.

(** *** The channels *)





(** A step of [run] failed: [run] returns with an error, and one of
    the failures holds. *)
Ltac step_fails :=
  eexists _, _; split; [reflexivity|]; split; [intros _ | intros _; by eexists].

Section Channels.

Variable unmarshal : string -> option (gmap string any).

(** What [run] returns: the events of the lines read, and an error
    exactly when a step of the invocation failed. *)
Lemma run_outcome (w : Os.World) (opts : RunOptions) :
  exists events err,
    run unmarshal w opts = Ok (events, err) /\
    (is_Some err <->
     getwd_failed w opts \/ pipe_failed w opts \/ launch_failed w opts
     \/ wait_failed w opts).
Proof.
  unfold run, getwd_failed, pipe_failed, launch_failed, wait_failed, process,
    work_dir.
  destruct (String.eqb_spec (CWD opts) "") as [Hcwd|Hcwd];
    [destruct (Os.Getwd w) as [dir [e|]]; simpl; [step_fails; left; eauto|]|].
  all: destruct (Os.StdoutPipe_err _) as [e|] eqn:E1;
    [step_fails; right; left; eauto|].
  all: destruct (Os.Start_err _) as [e|] eqn:E2;
    [step_fails; right; right; left; eauto|].
  all: rewrite scan_loop_omap; simpl.
  all: destruct (Os.Wait_err _) as [e|] eqn:E3;
    [step_fails; right; right; right; eauto|].
  all: eexists _, _; split; [done|]; split; [by intros [? ?]|].
  - intros [[_ [? ?]]|[[? ?]|[[? ?]|[? ?]]]]; done.
  - intros [[? _]|[[? ?]|[[? ?]|[? ?]]]]; done.
Qed.

(** What the goroutine of [Run] does to the error channel: it sends
    the error of [run] if there is one, and closes the channel. *)
Lemma Run_errc (w : Os.World) (opts : RunOptions) :
  exists events errs,
    Run unmarshal w opts = Ok (map Send events ++ [Close], map Send errs ++ [Close]) /\
    length errs <= 1 /\
    (errs <> [] <->
     getwd_failed w opts \/ pipe_failed w opts \/ launch_failed w opts
     \/ wait_failed w opts).
Proof.
  destruct (run_outcome w opts) as (events & err & Hrun & Hiff).
  unfold Run. rewrite Hrun. simpl.
  exists events, (option_list err). destruct err as [e|]; simpl.
  - split; [done|]. split; [lia|]. rewrite <- Hiff. split; [by eexists | done].
  - split; [done|]. split; [lia|]. rewrite <- Hiff. split; [done | by intros [? ?]].
Qed.

End Channels.




Example Run_clean_exit :
  exists events,
    Run Json.Unmarshal world_stream opts_start = Ok (map Send events ++ [Close], [Close])
    /\ length events = 3.
Proof. eexists [_; _; _]. split; [vm_compute; reflexivity | done]. Qed.

End ClaudeFacts.

(** ** The registry *)

Module RegistryFacts.

Import GoRtFacts Runner Fixtures.

Lemma fold_left_append {A} (l acc : list A) :
  fold_left (fun names k => names ++ [k]) l acc = acc ++ l.
Proof.
  revert acc. induction l as [|x l IH]; intros acc; simpl.
  - by rewrite app_nil_r.
  - rewrite IH. by rewrite <- app_assoc.
Qed.

Lemma registeredNames_sort (registry : Registry) :
  registeredNames registry = sort_Strings (range_keys registry).
Proof. unfold registeredNames. by rewrite fold_left_append. Qed.

Lemma range_keys_registered (registry : Registry) (k : string) :
  k ∈ range_keys registry <-> is_Some (registry !! k).
Proof.
  unfold range_keys. rewrite list_elem_of_fmap. split.
  - intros ([k' c] & -> & Hin). apply elem_of_map_to_list in Hin. by eexists.
  - intros [c Hc]. exists (k, c). split; [done|]. by apply elem_of_map_to_list.
Qed.








(** The tests of the factory, and the registration of the adapter. *)
Example TestNewRunner_ReturnsErrorForUnknownCommand :
  exists msg,
    NewRunner registry_test (cfg_named "unknown-agent") = (None, Some msg) /\
    strings_Contains msg "unsupported runner" = true /\
    strings_Contains msg "unknown-agent" = true.
Proof. eexists. split; [vm_compute; reflexivity|]. by vm_compute. Qed.

Example TestNewRunner_ReturnsRunnerForRegisteredCommand :
  NewRunner registry_test (cfg_named "test-runner") = (Some stubRunner, None).
Proof. reflexivity. Qed.

Example claude_registered :
  NewRunner (Claude.init registry_init) cfg_claude = (Some (Claude.New tt), None).
Proof. reflexivity. Qed.

(** A later registration under the same name replaces the earlier. *)
Lemma Register_overwrites (name : string) (c1 c2 : unit -> Runner)
    (registry : Registry) :
  Register name c2 (Register name c1 registry) = Register name c2 registry.
Proof. unfold Register. apply insert_insert_eq. Qed.

End RegistryFacts.

(** ** Prompts *)

Module PromptFacts.

Import GoRtFacts Runner Fixtures.

(** A text written down holds no line feed. *)
Ltac no_line_feed := simpl; repeat (split; [discriminate|]); exact I.

Lemma no_newline_app (a b : string) :
  Claude.no_newline (a +:+ b) <-> Claude.no_newline a /\ Claude.no_newline b.
Proof.
  induction a as [|c a IH]; [rewrite sapp_nil_l; simpl; tauto|].
  rewrite sapp_cons. simpl. tauto.
Qed.

(** A word without a line feed that occurs in two texts joined by a
    line feed occurs in one of them. *)
Lemma occurs_across_newline (sub a b : string) :
  Claude.no_newline sub -> sub <> "" ->
  occurs sub (a +:+ String newline b) -> occurs sub a \/ occurs sub b.
Proof.
  intros Hnl Hne (x & y & H).
  destruct (sapp_eq_inv _ _ _ _ H) as [[k [Hx Hk]]|[k [Ha Hk]]].
  - destruct k as [|c k].
    + rewrite sapp_nil_l in Hk. destruct sub as [|c sub]; [done|].
      rewrite sapp_cons in Hk. injection Hk as <- _. by destruct Hnl.
    + rewrite sapp_cons in Hk. injection Hk as _ ->. right. by exists k, y.
  - destruct (sapp_eq_inv _ _ _ _ Hk) as [[k' [-> _]]|[k' [Hs Hk']]].
    + left. by exists x, k'.
    + destruct k' as [|c k'].
      * rewrite sapp_nil_r in Hs. subst k. left. exists x, "".
        by rewrite sapp_nil_r.
      * exfalso. rewrite sapp_cons in Hk'. injection Hk' as <- _. subst sub.
        apply no_newline_app in Hnl as [_ [Hnl _]]. done.
Qed.

Lemma occurs_after (c : ascii) (sub s : string) :
  (forall rest, sub <> String c rest) ->
  occurs sub (String c s) -> occurs sub s.
Proof.
  intros Hc (x & y & H). destruct x as [|c' x].
  - rewrite sapp_nil_l in H. destruct sub as [|c' sub].
    + by exists "", s.
    + rewrite sapp_cons in H. injection H as <- _. by destruct (Hc sub).
  - rewrite sapp_cons in H. injection H as _ ->. by exists x, y.
Qed.

Lemma prompt_layout (content header : string) :
  BuildPromptWithHeader content header
  = knowledge_hint +:+ String newline (String newline ("---" +:+
      String newline (String newline (("# " +:+ header) +:+
        String newline (String newline content))))).
Proof.
  unfold BuildPromptWithHeader, WriteString, blank_line.
  rewrite sapp_nil_l, !sapp_assoc. reflexivity.
Qed.

(** X1.  The prompt begins with the knowledge hint, ends with the
    content as it was given, and holds the knowledge directory, the
    heading made of the header, and the content. *)
Theorem BuildPromptWithHeader_contains (content header : string) :
  let prompt := BuildPromptWithHeader content header in
  (exists rest, prompt = knowledge_hint +:+ rest) /\
  (exists front, prompt = front +:+ content) /\
  occurs ".spektacular/knowledge/" prompt /\
  occurs ("# " +:+ header) prompt /\
  occurs content prompt /\
  BuildPrompt content = BuildPromptWithHeader content default_header.
Proof.
  intros prompt. unfold prompt. rewrite prompt_layout.
  split; [by eexists|]. split.
  { exists (knowledge_hint +:+ blank_line +:+ "---" +:+ blank_line +:+ "# "
            +:+ header +:+ blank_line).
    unfold blank_line. rewrite !sapp_assoc. reflexivity. }
  split.
  { exists "Additional project knowledge, architectural context, and past learnings can be found in `".
    eexists. unfold knowledge_hint. rewrite !sapp_assoc. reflexivity. }
  split.
  { exists (knowledge_hint +:+ blank_line +:+ "---" +:+ blank_line),
      (blank_line +:+ content).
    unfold blank_line. rewrite !sapp_assoc. reflexivity. }
  split; [|reflexivity].
  exists (knowledge_hint +:+ blank_line +:+ "---" +:+ blank_line +:+ "# "
          +:+ header +:+ blank_line), "".
  unfold blank_line. rewrite !sapp_assoc, sapp_nil_r. reflexivity.
Qed.

(** X2.  Where the default header is neither in the header nor in the
    content, it is not in the prompt. *)
Theorem BuildPromptWithHeader_custom_header (content header : string) :
  ~ occurs default_header header ->
  ~ occurs default_header content ->
  ~ occurs default_header (BuildPromptWithHeader content header).
Proof.
  intros Hh Hc. rewrite prompt_layout.
  assert (Hnl : Claude.no_newline default_header) by (unfold default_header; no_line_feed).
  assert (Hne : default_header <> "") by discriminate.
  assert (Hempty : ~ occurs default_header "").
  { apply cut_None. reflexivity. }
  pose proof (occurs_across_newline default_header) as Hsplit.
  intros H.
  apply Hsplit in H as [H|H]; [|idtac|done..].
  { revert H. apply cut_None. vm_compute. reflexivity. }
  apply (Hsplit "") in H as [H|H]; [done|idtac|done..].
  apply Hsplit in H as [H|H]; [|idtac|done..].
  { revert H. apply cut_None. vm_compute. reflexivity. }
  apply (Hsplit "") in H as [H|H]; [done|idtac|done..].
  apply Hsplit in H as [H|H]; [|idtac|done..].
  { apply Hh. rewrite sapp_cons, sapp_cons, sapp_nil_l in H.
    apply occurs_after in H; [|discriminate].
    apply occurs_after in H; [done | discriminate]. }
  apply (Hsplit "") in H as [H|H]; done.
Qed.

Lemma BuildPromptWithHeader_custom_header_witness :
  ~ occurs default_header
      (BuildPromptWithHeader "plan content" "Implementation Plan").
Proof.
  apply BuildPromptWithHeader_custom_header; apply cut_None; vm_compute;
    reflexivity.
Defined.

(** X3.  With headers that hold no line feed, the prompt tells the
    header and the content: two prompts are the same only for the same
    header and the same content. *)
Theorem BuildPromptWithHeader_inj (c1 h1 c2 h2 : string) :
  Claude.no_newline h1 -> Claude.no_newline h2 ->
  BuildPromptWithHeader c1 h1 = BuildPromptWithHeader c2 h2 ->
  h1 = h2 /\ c1 = c2.
Proof.
  intros Hn1 Hn2. rewrite !prompt_layout. intros H.
  apply String.app_inj in H. repeat (injection H as H).
  rewrite !sapp_nil_l in H.
  destruct (sapp_eq_inv _ _ _ _ H) as [[k [Hk Hk']]|[k [Hk Hk']]].
  - destruct k as [|c k].
    + rewrite sapp_nil_r in Hk. rewrite sapp_nil_l in Hk'.
      by injection Hk' as ->.
    + exfalso. rewrite sapp_cons in Hk'. injection Hk' as <- _.
      subst h2. apply no_newline_app in Hn2 as [_ [Hn2 _]]. done.
  - destruct k as [|c k].
    + rewrite sapp_nil_r in Hk. rewrite sapp_nil_l in Hk'.
      by injection Hk' as ->.
    + exfalso. rewrite sapp_cons in Hk'. injection Hk' as <- _.
      subst h1. apply no_newline_app in Hn1 as [_ [Hn1 _]]. done.
Qed.

Lemma BuildPromptWithHeader_inj_witness :
  Claude.no_newline "Implementation Plan" /\
  ("Implementation Plan" = "Implementation Plan" /\
   "plan content" = "plan content").
Proof.
  split; [no_line_feed|].
  apply (BuildPromptWithHeader_inj "plan content" "Implementation Plan"
           "plan content" "Implementation Plan");
    [no_line_feed | no_line_feed | reflexivity].
Defined.

(** The prompt of the plan for feature 8. *)
Example BuildPrompt_feature_8 : BuildPrompt content_feature_8 = prompt_feature_8.
Proof. vm_compute. reflexivity. Qed.

End PromptFacts.

(** ** Tool uses, and the head of the command line *)

Module AccessorFacts.

Import GoRtFacts Runner Fixtures.

Lemma tool_use_block_Some (item : any) (t : gmap string any) :
  tool_use_block item = Some t ->
  item = VMap t /\ t !! "type" = Some (VStr "tool_use").
Proof.
  destruct item; try done. simpl.
  destruct (m !! "type") as [[]|] eqn:E; try done.
  destruct (String.eqb_spec s "tool_use") as [->|]; [|done].
  by intros [= <-].
Qed.

Lemma text_or_tool_use (item : any) :
  text_block item = None \/ tool_use_block item = None.
Proof.
  destruct item; auto. simpl.
  destruct (m !! "type") as [[]|]; auto.
  destruct (String.eqb_spec s "text") as [->|]; [by right|].
  left. by destruct (m !! "text") as [[]|].
Qed.

Lemma omap_cons {A B} (f : A -> option B) (x : A) (l : list A) :
  omap f (x :: l)
  = match f x with Some y => y :: omap f l | None => omap f l end.
Proof. reflexivity. Qed.

Lemma tool_uses_sublist (content : list any) :
  (VMap <$> omap tool_use_block content) `sublist_of` content.
Proof.
  induction content as [|item content IH]; [constructor|]. simpl.
  destruct (tool_use_block item) as [t|] eqn:E.
  - apply tool_use_block_Some in E as [-> _]. by constructor.
  - by constructor.
Qed.

Lemma text_and_tool_uses_length (content : list any) :
  length (omap tool_use_block content) + length (omap text_block content)
  <= length content.
Proof.
  induction content as [|item content IH]; [done|]. rewrite !omap_cons.
  destruct (text_or_tool_use item) as [H|H]; rewrite H.
  - destruct (tool_use_block item); cbn [length]; lia.
  - destruct (text_block item); cbn [length]; lia.
Qed.

(** X9.  The tool uses of an event are entries of
    [payload.message.content] of type "tool_use", in the order of the
    content; no entry counts both as a tool use and as a text block. *)
Theorem ToolUses_blocks (e : Event) (tools : list (gmap string any)) :
  ToolUses e = Ok tools ->
  Forall (fun t => t !! "type" = Some (VStr "tool_use")) tools /\
  (VMap <$> tools) `sublist_of` message_content e /\
  length tools + length (omap text_block (message_content e))
  <= length (message_content e).
Proof.
  destruct (String.eqb_spec (Type_ e) "assistant") as [Hty|Hty].
  - rewrite (EventFacts.ToolUses_assistant e Hty). intros [= <-].
    split; [|split].
    + apply Forall_forall. intros t (item & _ & Hitem)%list_elem_of_omap.
      by apply tool_use_block_Some in Hitem as [_ ?].
    + apply tool_uses_sublist.
    + apply text_and_tool_uses_length.
  - unfold ToolUses. rewrite (EventFacts.not_kind _ _ Hty). simpl.
    intros [= <-]. split; [constructor|]. split; [apply sublist_nil_l|].
    pose proof (text_and_tool_uses_length (message_content e)). simpl. lia.
Qed.

Lemma ToolUses_blocks_witness :
  exists tools,
    ToolUses ev_tool_use = Ok tools /\
    Forall (fun t => t !! "type" = Some (VStr "tool_use")) tools /\
    length tools = 1.
Proof.
  eexists. split; [vm_compute; reflexivity|]. split; [|reflexivity].
  apply (ToolUses_blocks ev_tool_use). vm_compute. reflexivity.
Defined.

(** The command line is the three leading elements, the system prompt
    flag if any, the configured arguments and the remaining flags. *)
Lemma command_line_layout (opts : RunOptions) :
  exists sys tail,
    Claude.command_line opts
    = [Config.Command (Config.Agent (Config opts)); "-p"; Prompt opts]
      ++ sys ++ Config.Args (Config.Agent (Config opts)) ++ tail.
Proof.
  unfold Claude.command_line. cbv zeta.
  exists (if negb (String.eqb (SystemPrompt opts) "")
          then ["--system-prompt"; SystemPrompt opts] else []).
  exists ((if (0 <? length (Config.AllowedTools (Config.Agent (Config opts))))%nat
           then ["--allowedTools";
                 strings_Join (Config.AllowedTools (Config.Agent (Config opts))) ","]
           else [])
          ++ (if Config.DangerouslySkipPermissions (Config.Agent (Config opts))
              then ["--dangerously-skip-permissions"] else [])
          ++ (if negb (String.eqb (SessionID_ opts) "")
              then ["--resume"; SessionID_ opts] else [])).
  destruct (negb (String.eqb (SystemPrompt opts) ""));
    destruct (0 <? length (Config.AllowedTools (Config.Agent (Config opts))))%nat;
    destruct (Config.DangerouslySkipPermissions (Config.Agent (Config opts)));
    destruct (negb (String.eqb (SessionID_ opts) ""));
    rewrite ?app_nil_r, <- ?app_assoc; reflexivity.
Qed.

(** X10.  The command line always starts with the executable name,
    the prompt flag and the prompt as one argument, whatever the
    prompt holds, so that its head and its tail exist; and the
    configured arguments are in it, in their order. *)
Theorem command_line_head (opts : RunOptions) :
  (exists rest,
     Claude.command_line opts
     = Config.Command (Config.Agent (Config opts)) :: "-p" :: Prompt opts :: rest) /\
  (exists before after,
     Claude.command_line opts
     = before ++ Config.Args (Config.Agent (Config opts)) ++ after) /\
  3 <= length (Claude.command_line opts).
Proof.
  destruct (command_line_layout opts) as (sys & tail & Hcmd).
  rewrite Hcmd. split; [|split].
  - eexists. reflexivity.
  - exists ([Config.Command (Config.Agent (Config opts)); "-p"; Prompt opts] ++ sys), tail.
    rewrite <- app_assoc. reflexivity.
  - cbn [app length]. lia.
Qed.

End AccessorFacts.

(** ** The output stream *)

Module StreamFacts.

Import GoRtFacts PromptFacts Runner Claude Output Fixtures.

(** *** Lines *)

Lemma dropCR_cr (line : string) : dropCR (line +:+ cr) = line.
Proof.
  induction line as [|c line IH]; [reflexivity|].
  rewrite sapp_cons. simpl. rewrite IH.
  destruct line; reflexivity.
Qed.

Lemma dropCR_plain (line : string) :
  ends_with_cr line = false -> dropCR line = line.
Proof.
  induction line as [|c line IH]; intros Hcr; [reflexivity|].
  destruct line as [|c' line].
  - simpl in *. by rewrite Hcr.
  - change (dropCR (String c (String c' line)))
      with (String c (dropCR (String c' line))).
    by rewrite IH.
Qed.

(** A line that fits and its line feed: the scanner yields the line
    and goes on with what follows. *)
Lemma scan_lines_line (line : string) :
  forall (max : N) (cur : string) (n : N) (rest : string),
    no_newline line ->
    (n + N.of_nat (String.length line) < max)%N ->
    scan_lines max cur n (line +:+ String newline rest)
    = (dropCR (cur +:+ line) :: (scan_lines max "" 0 rest).1,
       (scan_lines max "" 0 rest).2).
Proof.
  induction line as [|c line IH]; intros max cur n rest Hnl Hlen.
  - rewrite sapp_nil_l, sapp_nil_r. cbn [scan_lines].
    rewrite Ascii.eqb_refl. by destruct (scan_lines max "" 0 rest).
  - destruct Hnl as [Hc Hnl]. rewrite sapp_cons. cbn [scan_lines].
    destruct (Ascii.eqb_spec c newline) as [->|_]; [done|].
    cbn [String.length] in Hlen.
    destruct (N.leb_spec max (n + 1)) as [?|_]; [lia|].
    rewrite IH; [|done|lia]. by rewrite sapp_assoc.
Qed.

(** The last line, when no line feed follows it. *)
Lemma scan_lines_last (line : string) :
  forall (max : N) (cur : string) (n : N),
    no_newline line ->
    (n + N.of_nat (String.length line) < max)%N ->
    scan_lines max cur n line
    = (if (n + N.of_nat (String.length line) =? 0)%N then []
       else [dropCR (cur +:+ line)], AtEOF).
Proof.
  induction line as [|c line IH]; intros max cur n Hnl Hlen.
  - simpl. by rewrite N.add_0_r, sapp_nil_r.
  - destruct Hnl as [Hc Hnl]. cbn [scan_lines].
    destruct (Ascii.eqb_spec c newline) as [->|_]; [done|].
    cbn [String.length] in Hlen |- *.
    destruct (N.leb_spec max (n + 1)) as [?|_]; [lia|].
    rewrite IH; [|done|lia]. rewrite sapp_assoc.
    destruct (N.eqb_spec (n + 1 + N.of_nat (String.length line)) 0); [lia|].
    destruct (N.eqb_spec (n + N.of_nat (S (String.length line))) 0); [lia|].
    reflexivity.
Qed.

Lemma unlines_cons_app (line : string) (lines : list string) (more : string) :
  unlines (line :: lines) +:+ more
  = line +:+ String newline (unlines lines +:+ more).
Proof. simpl. by rewrite sapp_assoc. Qed.

(** Lines that fit, each with its line feed, and then more output. *)
Lemma Scanner_unlines_app (lines : list string) (more : string) :
  Forall fits lines ->
  Scanner (unlines lines +:+ more)
  = (map dropCR lines ++ (Scanner more).1, (Scanner more).2).
Proof.
  unfold Scanner. induction 1 as [|line lines [Hnl Hlen] _ IH].
  - rewrite sapp_nil_l. by destruct (scan_lines maxTokenSize "" 0 more).
  - rewrite unlines_cons_app, scan_lines_line; [|done|lia].
    rewrite IH. by rewrite sapp_nil_l.
Qed.

(** X4.  The scanner gives back the lines the process wrote: for
    lines that fit the buffer and do not end in a carriage return,
    whether a line feed or a carriage return and a line feed ends each
    of them, reading the bytes written yields these lines, in order,
    and ends at the end of the input. *)
Theorem Scanner_reads_lines (lines : list string) :
  (Forall fits lines ->
   Forall (fun line => ends_with_cr line = false) lines ->
   Scanner (unlines lines) = (lines, AtEOF)) /\
  (Forall fits (map (fun line => line +:+ cr) lines) ->
   Scanner (unlines (map (fun line => line +:+ cr) lines)) = (lines, AtEOF)).
Proof.
  split.
  - intros Hfit Hcr.
    rewrite <- (sapp_nil_r (unlines lines)), Scanner_unlines_app; [|done].
    cbn [Scanner scan_lines fst snd]. rewrite app_nil_r. f_equal. clear Hfit.
    induction Hcr as [|line lines Hline _ IH]; [done|].
    cbn [map]. by rewrite IH, dropCR_plain.
  - intros Hfit.
    rewrite <- (sapp_nil_r (unlines _)), Scanner_unlines_app; [|done].
    cbn [Scanner scan_lines fst snd]. rewrite app_nil_r. f_equal. clear.
    induction lines as [|line lines IH]; [done|].
    cbn [map]. by rewrite IH, dropCR_cr.
Qed.

(** A line written down fits the buffer. *)
Ltac fits_buffer := split; [no_line_feed | vm_compute; reflexivity].

Lemma Scanner_reads_lines_witness :
  Scanner (unlines lines_stream) = (lines_stream, AtEOF) /\
  Scanner (unlines lines_stream_crlf) = (lines_stream, AtEOF).
Proof.
  split.
  - apply (proj1 (Scanner_reads_lines lines_stream)).
    + repeat (constructor; [fits_buffer|]). constructor.
    + repeat constructor.
  - apply (proj2 (Scanner_reads_lines lines_stream)).
    repeat (constructor; [fits_buffer|]). constructor.
Defined.

(** *** Events *)

(** Dropping entries does not lengthen a list. *)
Lemma omap_length_le {A B} (f : A -> option B) (l : list A) :
  length (omap f l) <= length l.
Proof.
  induction l as [|a l IH]; [done|]. rewrite AccessorFacts.omap_cons.
  destruct (f a); cbn [length]; lia.
Qed.

Section Events.

Variable unmarshal : string -> option (gmap string any).

(** X5.  Events follow the lines as they are completed: for complete
    lines that fit the buffer, followed by any further output, the
    events are those of the complete lines and then those of the
    further output; what comes later changes nothing in the events of
    the lines already written. *)
Theorem scan_loop_streams (lines : list string) (more : string) :
  Forall fits lines ->
  exists later,
    scan_loop unmarshal more = Ok later /\
    scan_loop unmarshal (unlines lines +:+ more)
    = Ok (omap (line_event unmarshal) (map dropCR lines) ++ later).
Proof.
  intros Hfit. exists (omap (line_event unmarshal) (Scanner more).1).
  rewrite !ClaudeFacts.scan_loop_omap. split; [done|].
  rewrite Scanner_unlines_app; [|done]. cbn [fst]. by rewrite omap_app.
Qed.

(** X6.  A last line without a line feed is read like the others:
    after complete lines that fit the buffer, a non-empty rest of the
    output that fits as well is the last line, and its event follows
    theirs. *)
Theorem scan_loop_last_line (lines : list string) (last : string) :
  Forall fits lines -> fits last -> last <> "" ->
  Scanner (unlines lines +:+ last) = (map dropCR lines ++ [dropCR last], AtEOF) /\
  scan_loop unmarshal (unlines lines +:+ last)
  = Ok (omap (line_event unmarshal) (map dropCR lines)
        ++ option_list (line_event unmarshal (dropCR last))).
Proof.
  intros Hfit [Hnl Hlen] Hne.
  assert (Hlast : Scanner last = ([dropCR last], AtEOF)).
  { unfold Scanner. rewrite scan_lines_last; [|done|lia].
    rewrite sapp_nil_l. destruct last; [done|]. reflexivity. }
  assert (Hscan : Scanner (unlines lines +:+ last)
                  = (map dropCR lines ++ [dropCR last], AtEOF)).
  { rewrite Scanner_unlines_app; [|done]. by rewrite Hlast. }
  split; [done|].
  rewrite ClaudeFacts.scan_loop_omap, Hscan. cbn [fst].
  rewrite omap_app. reflexivity.
Qed.



(** X8.  With a working directory in the options the current
    directory is not asked for: what [os.Getwd] would report, a
    failure included, changes nothing. *)
Theorem Run_ignores_Getwd (w : Os.World) (getwd : string * option Os.error)
    (opts : RunOptions) :
  CWD opts <> "" ->
  Run unmarshal (Os.mkWorld getwd (Os.Command w)) opts = Run unmarshal w opts.
Proof.
  intros Hcwd%String.eqb_neq. unfold Run, run. by rewrite Hcwd.
Qed.

(** X18.  The read loop invents nothing: every event it sends comes
    from a line of the output that is not empty and that the decoder
    accepted, its payload is what the decoder gave for that line, and
    its kind is the string under "type" of that payload; there are at
    most as many events as lines. *)
Theorem scan_loop_provenance (output : string) (events : list Event) :
  scan_loop unmarshal output = Ok events ->
  Forall (fun e =>
            Type_ e = type_field (Data e) /\
            exists line,
              line ∈ (Scanner output).1 /\ line <> "" /\
              unmarshal line = Some (Data e)) events /\
  length events <= length (Scanner output).1.
Proof.
  rewrite ClaudeFacts.scan_loop_omap. intros [= <-]. split.
  - apply Forall_forall. intros e (line & Hin & Hline)%list_elem_of_omap.
    unfold line_event in Hline.
    destruct (String.eqb_spec line "") as [|Hne]; [done|].
    destruct (unmarshal line) as [data|] eqn:E; [|done].
    injection Hline as <-. split; [done|]. by exists line.
  - apply omap_length_le.
Qed.

End Events.

Lemma scan_loop_provenance_witness :
  exists events,
    scan_loop Json.Unmarshal output_stream = Ok events /\
    Forall (fun e => Type_ e = type_field (Data e)) events /\
    length events <= 5.
Proof.
  eexists. split; [vm_compute; reflexivity|].
  destruct (scan_loop_provenance Json.Unmarshal output_stream _
              ltac:(vm_compute; reflexivity)) as [Hall Hlen].
  split; [|exact Hlen].
  eapply Forall_impl; [exact Hall|]. by intros e [? _].
Defined.

Lemma scan_loop_streams_witness :
  exists later,
    scan_loop Json.Unmarshal "garbage" = Ok later /\
    scan_loop Json.Unmarshal (unlines lines_stream +:+ "garbage")
    = Ok (omap (line_event Json.Unmarshal) (map dropCR lines_stream) ++ later).
Proof.
  apply (scan_loop_streams Json.Unmarshal lines_stream "garbage").
  repeat (constructor; [fits_buffer|]). constructor.
Defined.

Lemma scan_loop_last_line_witness :
  scan_loop Json.Unmarshal
    (unlines ["garbage"] +:+ dq "{'type':'result','result':'done'}")
  = Ok [mkEvent "result" {[ "type" := VStr "result"; "result" := VStr "done" ]}].
Proof.
  rewrite (proj2 (scan_loop_last_line Json.Unmarshal ["garbage"]
                    (dq "{'type':'result','result':'done'}")
                    ltac:(repeat (constructor; [fits_buffer|]); constructor)
                    ltac:(fits_buffer) ltac:(discriminate))).
  vm_compute. reflexivity.
Defined.

Lemma Run_ignores_Getwd_witness :
  CWD opts_start <> "" /\
  Run Json.Unmarshal world_stream_no_dir opts_start
  = Run Json.Unmarshal world_stream opts_start.
Proof.
  split; [discriminate|].
  apply (Run_ignores_Getwd Json.Unmarshal world_stream
           ("", Some "getwd: no such file or directory") opts_start).
  discriminate.
Defined.


End StreamFacts.

(** ** Registration *)

Module RegistrationFacts.

Import GoRtFacts Runner Fixtures.



(** X12.  Registering a name leaves the other names as they were:
    for another name [NewRunner] returns the same Runner as before,
    and fails exactly when it failed before. *)
Theorem Register_other_name (registry : Registry) (name : string)
    (constructor : unit -> Runner) (cfg : Config.Config) :
  Config.Command (Config.Agent cfg) <> name ->
  (NewRunner (Register name constructor registry) cfg).1
  = (NewRunner registry cfg).1 /\
  (is_Some (NewRunner (Register name constructor registry) cfg).2 <->
   is_Some (NewRunner registry cfg).2).
Proof.
  intros Hname. unfold NewRunner, Register, Registry in *. cbv zeta.
  rewrite lookup_insert_ne; [|done].
  destruct (registry !! _); simpl; [done|].
  split; [done|]. split; intros _; by eexists.
Qed.

Lemma Register_other_name_witness :
  (NewRunner registry_test cfg_claude).1 = Some (Claude.New tt) /\
  is_Some (NewRunner registry_test (cfg_named "unknown-agent")).2.
Proof.
  split.
  - transitivity (NewRunner (Claude.init registry_init) cfg_claude).1; [|reflexivity].
    exact (proj1 (Register_other_name (Claude.init registry_init) "test-runner"
                    (fun _ => Some stubRunner) cfg_claude ltac:(discriminate))).
  - apply (proj2 (proj2 (Register_other_name (Claude.init registry_init) "test-runner"
                           (fun _ => Some stubRunner) (cfg_named "unknown-agent")
                           ltac:(discriminate)))).
    by eexists.
Defined.

Lemma range_keys_Register_fresh (registry : Registry) (name : string)
    (constructor : unit -> Runner) :
  registry !! name = None ->
  range_keys (Register name constructor registry) ≡ₚ name :: range_keys registry.
Proof.
  intros Hfresh. unfold range_keys, Register, Registry in *.
  by rewrite map_to_list_insert.
Qed.

Lemma range_keys_Register_known (registry : Registry) (name : string)
    (constructor : unit -> Runner) :
  is_Some (registry !! name) ->
  range_keys (Register name constructor registry) ≡ₚ range_keys registry.
Proof.
  intros Hknown. apply NoDup_Permutation.
  - apply NoDup_fst_map_to_list.
  - apply NoDup_fst_map_to_list.
  - intros k. rewrite !RegistryFacts.range_keys_registered.
    unfold Register, Registry in *.
    destruct (decide (name = k)) as [->|Hne].
    + rewrite lookup_insert_eq. split; [done | by eexists].
    + by rewrite lookup_insert_ne.
Qed.

(** X13.  After a registration the list of registered names is
    sorted and holds the name; it is the former list with the name
    added when the name is new, and the former list when the name was
    registered already: a name is never listed twice. *)
Theorem registeredNames_Register (registry : Registry) (name : string)
    (constructor : unit -> Runner) :
  let names := registeredNames (Register name constructor registry) in
  Sorted String.le names /\
  NoDup names /\
  name ∈ names /\
  (registry !! name = None -> names ≡ₚ name :: registeredNames registry) /\
  (is_Some (registry !! name) -> names = registeredNames registry).
Proof.
  intros names. unfold names.
  rewrite !RegistryFacts.registeredNames_sort. unfold sort_Strings.
  split; [apply (Sorted_merge_sort String.le)|]. split; [|split; [|split]].
  - rewrite merge_sort_Permutation. apply NoDup_fst_map_to_list.
  - rewrite merge_sort_Permutation. apply RegistryFacts.range_keys_registered.
    unfold Register, Registry in *. rewrite lookup_insert_eq. by eexists.
  - intros Hfresh. rewrite !merge_sort_Permutation.
    by apply range_keys_Register_fresh.
  - intros Hknown. apply (Sorted_unique String.le).
    + apply (Sorted_merge_sort String.le).
    + apply (Sorted_merge_sort String.le).
    + rewrite !merge_sort_Permutation. by apply range_keys_Register_known.
Qed.

Lemma registeredNames_Register_witness :
  registeredNames registry_test ≡ₚ "test-runner" :: registeredNames (Claude.init registry_init) /\
  registeredNames (Register "claude" (fun _ => None) registry_test)
  = registeredNames registry_test.
Proof.
  split.
  - apply (proj1 (proj2 (proj2 (proj2
             (registeredNames_Register (Claude.init registry_init) "test-runner"
                (fun _ => Some stubRunner)))))).
    reflexivity.
  - apply (proj2 (proj2 (proj2 (proj2
             (registeredNames_Register registry_test "claude" (fun _ => None)))))).
    by eexists.
Defined.

(** X14.  Deleting a name that was new when it was registered puts
    the registry back: the list of names and every lookup through
    [NewRunner] are as before the registration. *)
Theorem Register_then_delete (registry : Registry) (name : string)
    (constructor : unit -> Runner) :
  registry !! name = None ->
  registry_delete name (Register name constructor registry) = registry /\
  (forall cfg,
     NewRunner (registry_delete name (Register name constructor registry)) cfg
     = NewRunner registry cfg) /\
  registeredNames (registry_delete name (Register name constructor registry))
  = registeredNames registry.
Proof.
  intros Hfresh.
  assert (H : registry_delete name (Register name constructor registry) = registry).
  { unfold registry_delete, Register, Registry in *. by apply delete_insert_id. }
  by rewrite H.
Qed.

Lemma Register_then_delete_witness :
  registry_delete "test-runner" registry_test = Claude.init registry_init.
Proof.
  apply (proj1 (Register_then_delete (Claude.init registry_init) "test-runner"
                  (fun _ => Some stubRunner) eq_refl)).
Defined.

(** X15.  Once the adapter has registered itself, whatever the
    registry held, [NewRunner] makes the Claude runner for the command
    "claude", and what this runner's [Run] hands back is what the
    goroutine of the adapter does with the decoder of
    [encoding/json], which never panics. *)
Theorem init_registers_Claude (registry : Registry) (cfg : Config.Config) :
  Config.Command (Config.Agent cfg) = "claude" ->
  exists r,
    NewRunner (Claude.init registry) cfg = (Some r, None) /\
    forall w opts, Claude.Run Json.Unmarshal w opts = Ok (Run r w opts).
Proof.
  intros Hname. exists (Claude.New tt). split.
  - unfold Claude.init, NewRunner, Register, Registry in *. cbv zeta. rewrite Hname.
    by rewrite lookup_insert_eq.
  - intros w opts. simpl.
    destruct (ClaudeFacts.Run_errc Json.Unmarshal w opts)
      as (events & errs & -> & _). reflexivity.
Qed.

Lemma init_registers_Claude_witness :
  exists r,
    NewRunner (Claude.init registry_ghost) cfg_claude = (Some r, None) /\
    Claude.Run Json.Unmarshal world_stream opts_start
    = Ok (Run r world_stream opts_start).
Proof.
  destruct (init_registers_Claude registry_ghost cfg_claude eq_refl)
    as (r & Hnew & Hrun).
  exists r. split; [exact Hnew | apply Hrun].
Defined.

End RegistrationFacts.

(** ** The question pattern *)

Module PatternFacts.

Import GoRtFacts Runner Fixtures.

Lemma occurs_in_suffix (sub a b : string) : occurs sub b -> occurs sub (a +:+ b).
Proof.
  intros (x & y & ->). exists (a +:+ x), y. by rewrite sapp_assoc.
Qed.

Lemma not_occurs_empty (sep : string) : sep <> "" -> ~ occurs sep "".
Proof.
  intros Hne (x & y & H). destruct x; [|done]. rewrite sapp_nil_l in H.
  by destruct sep.
Qed.

(** The text before the separator that [cut] finds holds no
    separator. *)
Lemma cut_before (sep s : string) :
  forall before after,
    sep <> "" -> cut sep s = Some (before, after) -> ~ occurs sep before.
Proof.
  induction s as [|c s IH]; intros before after Hne; cbn [cut].
  - destruct (trim_prefix sep "") eqn:E; [|done].
    intros [= <- <-]. by apply not_occurs_empty.
  - destruct (trim_prefix sep (String c s)) eqn:E.
    + intros [= <- <-]. by apply not_occurs_empty.
    + destruct (cut sep s) as [[b a]|] eqn:Ec; [|done].
      intros [= <- <-] (x & y & H). destruct x as [|c' x].
      * rewrite sapp_nil_l in H.
        apply cut_Some in Ec. subst s.
        assert (trim_prefix sep (String c (b +:+ sep +:+ a))
                = Some (y +:+ sep +:+ a)) as E'.
        { apply trim_prefix_Some. rewrite <- sapp_cons, H.
          by rewrite !sapp_assoc. }
        congruence.
      * rewrite sapp_cons in H. injection H as _ ->.
        apply (IH _ _ Hne eq_refl). by exists x, y.
Qed.

(** X16.  Every span the pattern finds is enclosed by the opening and
    the closing token somewhere in the text, and holds no closing
    token: a span ends at the first closing token after its opening
    token. *)
Theorem spans_are_shortest (text body : string) :
  body ∈ questionPattern_FindAll text ->
  marker_at body text /\ ~ occurs marker_close body.
Proof.
  unfold questionPattern_FindAll.
  generalize (S (String.length text)) as fuel. intros fuel. revert text.
  induction fuel as [|fuel IH]; intros text; [by intros ?%elem_of_nil|].
  rewrite DetectorFacts.find_S.
  destruct (cut marker_open text) as [[before after_open]|] eqn:E1;
    [|by intros ?%elem_of_nil].
  destruct (cut marker_close after_open) as [[body' rest]|] eqn:E2;
    [|by intros ?%elem_of_nil].
  intros [->|Hin]%elem_of_cons.
  - split.
    + apply cut_Some in E1, E2. subst. by exists before, rest.
    + eapply cut_before; [|exact E2]. discriminate.
  - destruct (IH _ Hin) as [(b & a & ->) Hclose]. split; [|done].
    apply cut_Some in E1, E2. subst.
    exists (before +:+ marker_open +:+ body' +:+ marker_close +:+ b), a.
    by rewrite !sapp_assoc.
Qed.

Lemma spans_are_shortest_witness :
  "y-" ∈ questionPattern_FindAll "a<!--QUESTION:x-->b<!--QUESTION:y--->c" /\
  ~ occurs marker_close "y-".
Proof.
  assert (H : "y-" ∈ questionPattern_FindAll "a<!--QUESTION:x-->b<!--QUESTION:y--->c").
  { vm_compute. right. left. }
  split; [exact H|].
  apply (proj2 (spans_are_shortest _ _ H)).
Defined.

(** X17.  A text without an opening token, or without a closing
    token, has no span: a marker whose closing token has not arrived
    yet is not found. *)
Theorem no_token_no_span (text : string) :
  ~ occurs marker_open text \/ ~ occurs marker_close text ->
  questionPattern_FindAll text = [].
Proof.
  intros [Hopen|Hclose].
  - by apply DetectorFacts.FindAll_no_marker.
  - rewrite DetectorFacts.FindAll_unfold.
    destruct (cut marker_open text) as [[before after_open]|] eqn:E1; [|done].
    destruct (cut marker_close after_open) as [[body rest]|] eqn:E2; [|done].
    exfalso. apply Hclose. apply cut_Some in E1, E2. subst.
    apply occurs_in_suffix, occurs_in_suffix, occurs_in_suffix.
    by exists "", rest.
Qed.

Lemma no_token_no_span_witness :
  questionPattern_FindAll (dq "text <!--QUESTION:{'questions':[{'question':'Which") = [].
Proof.
  apply no_token_no_span. right. apply cut_None. vm_compute. reflexivity.
Defined.

End PatternFacts.

